(** * api-toolkit: the response renderer, the request model and the CLI header parser

    A shallow embedding of

    - [src/api_toolkit/display/formatters.py]  ([ResponseFormatter], [print_error],
      [print_success], [print_info]),
    - [src/api_toolkit/models/request_models.py]  ([HttpRequest], [HttpResponse],
      [RequestHistory]),
    - [src/api_toolkit/commands/request.py]  ([_parse_headers] and the commands
      [get], [post], [put], [delete]),
    - [src/api_toolkit/core/http_client.py]  ([HttpClient]),
    - [src/api_toolkit/cli.py]  ([hello]),

    followed by the properties of these functions that the specification states
    (Part II), by further properties read off the code (Part III), and by the
    properties of the runs on a Rich console (Part IV).  The
    network, the clock and [datetime.now()] are a [World] that the client and
    the commands are given; a run of theirs records the requests sent and the
    values printed, in order.

    Python values are modelled as the interpreter has them: a [str] is a
    sequence of Unicode code points (so [len] counts code points, not bytes), an
    [int] is an unbounded integer, a [float] is a binary64 number, a [dict] is
    an insertion-ordered association list with unique keys.

    Printing is modelled in two steps.  The run of a function lists the calls
    of [console.print] it makes, in order, each with the value it is given, as
    they follow one another when every call returns.  [on_console] then gives
    the run on a Rich console: Rich reads every [str] it is given as console
    markup and raises [MarkupError] on a closing tag that closes nothing, so
    the run stops at the first call that Rich refuses.  How Rich lays out what
    it accepts (styles, highlighting, wrapping) is not part of the model.  An
    exception ends the run and keeps what was printed before it.

    [str.lower], [str.upper], the [json] module and the Rich console are
    interfaces; every property is proved for all their implementations, and
    reference implementations run the examples. *)

From Stdlib Require Import List ZArith NArith Bool Ascii String Lia Floats.
From Stdlib Require Import DecimalString.
Import ListNotations.

Local Open Scope N_scope.

(* ================================================================== *)
(** * Part I: the model *)
(* ================================================================== *)

(** ** Python [str] *)

Module PyStr.

Definition codepoint := N.

(** A Python [str]: its code points, in order. *)
Definition str := list codepoint.

(** An ASCII literal of the source, as a [str]. *)
Definition lit (s : string) : str := map N_of_ascii (list_ascii_of_string s).

(** The same, with every apostrophe of the literal read as a double quote
    (code point 34); used to write JSON texts. *)
Definition qlit (s : string) : str :=
  map (fun c => if N.eqb c 39 then 34%N else c) (lit s).

(** [len(s)]. *)
Definition len (s : str) : nat := List.length s.

(** [a == b]. *)
Fixpoint str_eqb (a b : str) : bool :=
  match a, b with
  | [], [] => true
  | x :: a', y :: b' => N.eqb x y && str_eqb a' b'
  | _, _ => false
  end.

(** [x in xs] for a list of strings [xs]. *)
Definition in_list (x : str) (xs : list str) : bool := existsb (str_eqb x) xs.

(** [s.startswith(p)]. *)
Fixpoint startswith (p s : str) : bool :=
  match p, s with
  | [], _ => true
  | _ :: _, [] => false
  | x :: p', y :: s' => N.eqb x y && startswith p' s'
  end.

(** [sub in s]: [sub] occurs in [s] as a contiguous run. *)
Fixpoint contains (sub s : str) : bool :=
  startswith sub s ||
  match s with
  | [] => false
  | _ :: s' => contains sub s'
  end.

(** [s[:n]]. *)
Definition slice_to (n : nat) (s : str) : str := firstn n s.

(** [s.split(sep)] for a one-character separator: never empty, one more part
    than there are separators. *)
Fixpoint split (sep : codepoint) (s : str) : list str :=
  match s with
  | [] => [[]]
  | c :: s' =>
      if N.eqb c sep then [] :: split sep s'
      else match split sep s' with
           | cur :: rest => (c :: cur) :: rest
           | [] => [[c]]
           end
  end.

(** The text before and after the first [sep] of [s], when there is one. *)
Fixpoint partition (sep : codepoint) (s : str) : option (str * str) :=
  match s with
  | [] => None
  | c :: s' =>
      if N.eqb c sep then Some ([], s')
      else match partition sep s' with
           | Some (before, after) => Some (c :: before, after)
           | None => None
           end
  end.

(** [s.split(sep, 1)]: at most one split, at the first separator. *)
Definition split1 (sep : codepoint) (s : str) : list str :=
  match partition sep s with
  | Some (before, after) => [before; after]
  | None => [s]
  end.

(** [sep.join(parts)]. *)
Fixpoint join (sep : str) (parts : list str) : str :=
  match parts with
  | [] => []
  | [p] => p
  | p :: rest => p ++ sep ++ join sep rest
  end.

(** [c.isspace()], CPython's [_PyUnicode_IsWhitespace]. *)
Definition is_space (c : codepoint) : bool :=
  ((9 <=? c) && (c <=? 13)) || ((28 <=? c) && (c <=? 32))
  || (c =? 133) || (c =? 160) || (c =? 5760)
  || ((8192 <=? c) && (c <=? 8202))
  || (c =? 8232) || (c =? 8233) || (c =? 8239) || (c =? 8287) || (c =? 12288).

(** [s.lstrip()], [s.rstrip()], [s.strip()]. *)
Fixpoint lstrip (s : str) : str :=
  match s with
  | [] => []
  | c :: s' => if is_space c then lstrip s' else s
  end.

Definition rstrip (s : str) : str := rev (lstrip (rev s)).

Definition strip (s : str) : str := rstrip (lstrip s).

(** [str(n)] for the result of [len], and for any [int]. *)
Definition str_of_nat (n : nat) : str :=
  lit (NilEmpty.string_of_uint (Nat.to_uint n)).

Definition str_of_int (z : Z) : str :=
  lit (NilEmpty.string_of_int (Z.to_int z)).

(** The line feed, and the string ["\n"]. *)
Definition newline : codepoint := 10.

Definition nl : str := [newline].

(** *** Case conversion on Basic Latin *)

Definition is_ascii (c : codepoint) : bool := c <? 128.

Definition ascii_lower (c : codepoint) : codepoint :=
  if (65 <=? c) && (c <=? 90) then c + 32 else c.

Definition ascii_upper (c : codepoint) : codepoint :=
  if (97 <=? c) && (c <=? 122) then c - 32 else c.

(** *** UTF-8 *)

(** The UTF-8 code units of one code point; a surrogate has none. *)
Definition utf8_encode_char (c : codepoint) : option (list N) :=
  if c <? 128 then Some [c]
  else if c <? 2048 then Some [192 + c / 64; 128 + c mod 64]
  else if (55296 <=? c) && (c <=? 57343) then None
  else if c <? 65536 then
    Some [224 + c / 4096; 128 + (c / 64) mod 64; 128 + c mod 64]
  else if c <? 1114112 then
    Some [240 + c / 262144; 128 + (c / 4096) mod 64;
          128 + (c / 64) mod 64; 128 + c mod 64]
  else None.

(** [s.encode()]: the UTF-8 bytes of [s], or [None] where Python raises
    [UnicodeEncodeError]. *)
Fixpoint encode (s : str) : option (list N) :=
  match s with
  | [] => Some []
  | c :: s' =>
      match utf8_encode_char c, encode s' with
      | Some b, Some bs => Some (b ++ bs)
      | _, _ => None
      end
  end.

End PyStr.

Import PyStr.

(** ** Python [dict] *)

(** A [dict] keeps its keys in insertion order; a key occurs once.  [keqb] is
    the [==] of the keys. *)
Module PyDict.

Section Dict.

Context {K V : Type} (keqb : K -> K -> bool).

Definition dict := list (K * V).

(** [{}]. *)
Definition empty : dict := [].

(** [d.get(k, default)]. *)
Fixpoint get (d : dict) (k : K) (default : V) : V :=
  match d with
  | [] => default
  | (k', v) :: d' => if keqb k' k then v else get d' k default
  end.

(** [d[k] = v]: a key already present keeps its place and takes the new
    value; a new key goes to the end. *)
Fixpoint set (d : dict) (k : K) (v : V) : dict :=
  match d with
  | [] => [(k, v)]
  | (k', v') :: d' => if keqb k' k then (k', v) :: d' else (k', v') :: set d' k v
  end.

(** [d.items()], in insertion order. *)
Definition items (d : dict) : list (K * V) := d.

(** The truth value of [d]: false exactly for the empty dict. *)
Definition truthy (d : dict) : bool :=
  match d with
  | [] => false
  | _ :: _ => true
  end.

(** The keys of [d], in order. *)
Definition keys (d : dict) : list K := map fst d.

End Dict.

Arguments dict : clear implicits.
Arguments empty : clear implicits.

End PyDict.

(** A [dict[str, str]], the type of every header mapping. *)
Definition headers_dict := PyDict.dict str str.

(** ** Exceptions and the console *)

(** The exceptions the modelled code raises or lets through. *)
Inductive exn : Type :=
| ValueError (message : str)
| Abort                          (* click.Abort *)
| Uncaught (name : str).         (* raised inside a library call *)

(** What [console.print] is given. *)
Inductive renderable : Type :=
| RBlank                                          (* console.print() *)
| RText (markup : str)                            (* console.print(<str>) *)
| RPanel (content title border_style : str)       (* Panel(content, title=, border_style=) *)
| RSyntax (code lexer : str)                      (* Syntax(code, lexer, theme="monokai", line_numbers=False) *)
| RTable (rows : list (str * str)).               (* Table(show_header=False, box=None, padding=(0, 2)) *)

Inductive outcome (A : Type) : Type :=
| Returns (a : A)
| Raises (e : exn).

Arguments Returns {A} a.
Arguments Raises {A} e.

(** A run of a function: the values it gave to [console.print], in order,
    and how it ended.  Each call is taken to return; what the Rich console
    makes of the calls is [on_console], below. *)
Definition run (A : Type) : Type := (list renderable * outcome A)%type.

Definition ret {A : Type} (a : A) : run A := ([], Returns a).

Definition raise {A : Type} (e : exn) : run A := ([], Raises e).

Definition bind {A B : Type} (m : run A) (f : A -> run B) : run B :=
  match m with
  | (out, Returns a) => let (out', r) := f a in (out ++ out', r)
  | (out, Raises e) => (out, Raises e)
  end.

(** The call [console.print(r)], recorded with its argument. *)
Definition console_print (r : renderable) : run unit := ([r], Returns tt).

Declare Scope run_scope.
Delimit Scope run_scope with run.
Notation "m ;; k" := (bind m (fun _ => k))
  (at level 61, right associativity) : run_scope.
Local Open Scope run_scope.

(** What a run gave to [console.print], and whether it raised. *)
Definition printed {A : Type} (m : run A) : list renderable := fst m.

Definition raised {A : Type} (m : run A) : bool :=
  match snd m with
  | Returns _ => false
  | Raises _ => true
  end.

(** ** Python [float] formatting *)

(** The integer nearest to [m * 2^e], ties to even. *)
Definition round_half_even (m : positive) (e : Z) : Z :=
  if (0 <=? e)%Z then (Z.pos m * 2 ^ e)%Z
  else
    let d := (2 ^ (- e))%Z in
    let q := (Z.pos m / d)%Z in
    let r := (Z.pos m mod d)%Z in
    if (2 * r <? d)%Z then q
    else if (d <? 2 * r)%Z then (q + 1)%Z
    else if Z.even q then q else (q + 1)%Z.

(** [f"{x:.0f}"]. *)
Definition format_0f (x : float) : str :=
  match Prim2SF x with
  | S754_zero s => if s then lit "-0" else lit "0"
  | S754_infinity s => if s then lit "-inf" else lit "inf"
  | S754_nan => lit "nan"
  | S754_finite s m e =>
      (if s then lit "-" else []) ++ str_of_int (round_half_even m e)
  end.

(** ** Library functions outside the repository *)

(** [str.lower] and [str.upper]: Unicode case mapping. *)
Class UnicodeCase : Type := {
  lower : str -> str;
  upper : str -> str
}.

(** On a string of Basic Latin only, [lower] changes [A]-[Z] and nothing else. *)
Definition lower_on_ascii (U : UnicodeCase) : Prop :=
  forall s : str, forallb is_ascii s = true -> lower s = map ascii_lower s.

(** How a call [json.loads(s)] ends. *)
Inductive loads_result (V : Type) : Type :=
| Loaded (parsed : V)
| JSONDecodeError                 (* s is not a JSON document *)
| LoadsRaises (e : exn).          (* any other exception *)

Arguments Loaded {V} parsed.
Arguments JSONDecodeError {V}.
Arguments LoadsRaises {V} e.

(** The [json] module: [json.loads(s)] and
    [json.dumps(v, indent=indent, ensure_ascii=ensure_ascii)]. *)
Class JsonModule : Type := {
  json_value : Type;
  json_loads : str -> loads_result json_value;
  json_dumps : json_value -> nat -> bool -> str
}.

(** The Rich console, as far as the code depends on it.

    [markup_raises s]: Rich refuses [s] as console markup.  Rich reads as
    markup every [str] given to [console.print], the text and the title of a
    [Panel] and the cells of a [Table] ([rich.markup.render]); a closing tag
    that matches no open tag, as in ["[/x]"], makes it raise [MarkupError].

    [status_exit_raises]: leaving the block [with console.status(...)] raises
    [IndexError] when the block has called [console.clear_live()] itself.  It
    does not where [clear_live] resets a field (Rich 13); it does where
    [clear_live] pops the stack of live displays, which the exit of the block
    pops a second time (reported for Rich 14.1 and later).  The repository
    pins no version of Rich. *)
Class RichConsole : Type := {
  markup_raises : str -> bool;
  status_exit_raises : bool
}.

(** [rich.errors.MarkupError] and the built-in [IndexError]. *)
Definition MarkupError : exn := Uncaught (lit "MarkupError").

Definition IndexError : exn := Uncaught (lit "IndexError").

(** ** The run on a Rich console *)

(** [console.print(r)] raises [MarkupError]: some string of [r] that Rich
    reads as markup is refused.  A [Syntax] is highlighted, not read as
    markup, and [console.print()] prints an empty line. *)
Definition renderable_raises {R : RichConsole} (r : renderable) : bool :=
  match r with
  | RBlank => false
  | RText markup => markup_raises markup
  | RPanel content title _ => markup_raises content || markup_raises title
  | RSyntax _ _ => false
  | RTable rows =>
      existsb (fun kv => markup_raises (fst kv) || markup_raises (snd kv)) rows
  end.

(** The calls that return, up to the first one that raises, and whether one
    raises. *)
Fixpoint accepted {R : RichConsole} (out : list renderable)
    : list renderable * bool :=
  match out with
  | [] => ([], false)
  | r :: out' =>
      if renderable_raises r then ([], true)
      else let (before, failed) := accepted out' in (r :: before, failed)
  end.

(** The run [m] on a Rich console.  No handler of the code catches
    [MarkupError], so the first call that raises it ends the run. *)
Definition on_console {R : RichConsole} {A : Type} (m : run A) : run A :=
  let (before, failed) := accepted (fst m) in
  if failed then (before, Raises MarkupError) else m.

(** ** [models/request_models.py] *)

(** The fields [headers] and [body] of a request are [req_headers] and
    [req_body] here, the plain names being those of the response. *)
Record HttpRequest : Type := mkHttpRequest {
  method : str;
  url : str;
  req_headers : headers_dict;
  req_body : option str;
  timeout : Z
}.

Definition valid_methods : list str :=
  [lit "GET"; lit "POST"; lit "PUT"; lit "DELETE"; lit "PATCH"; lit "HEAD";
   lit "OPTIONS"].

(** ["Método inválido: "]. *)
Definition invalid_method_prefix : str :=
  lit "M" ++ [233] ++ lit "todo inv" ++ [225] ++ lit "lido: ".

(** [HttpRequest.__post_init__]: the object after it, or the exception. *)
Definition __post_init__ {U : UnicodeCase} (self : HttpRequest) : run HttpRequest :=
  let self :=
    mkHttpRequest (upper (method self)) (url self) (req_headers self)
                  (req_body self) (timeout self) in
  if negb (in_list (method self) valid_methods)
  then raise (ValueError (invalid_method_prefix ++ method self))
  else ret self.

(** [HttpRequest(method=, url=, headers=, body=, timeout=)]: the generated
    [__init__] stores the fields and calls [__post_init__]. *)
Definition new_HttpRequest {U : UnicodeCase} (method0 url0 : str)
    (headers0 : headers_dict) (body0 : option str) (timeout0 : Z) : run HttpRequest :=
  __post_init__ (mkHttpRequest method0 url0 headers0 body0 timeout0).

(** [timestamp] is the capture time; no modelled function reads it. *)
Record HttpResponse : Type := mkHttpResponse {
  status_code : Z;
  headers : headers_dict;
  body : str;
  elapsed_time : float;
  request : HttpRequest;
  timestamp : Z
}.

Definition is_success (self : HttpResponse) : bool :=
  ((200 <=? status_code self) && (status_code self <? 300))%Z.

Definition is_client_error (self : HttpResponse) : bool :=
  ((400 <=? status_code self) && (status_code self <? 500))%Z.

Definition is_server_error (self : HttpResponse) : bool :=
  ((500 <=? status_code self) && (status_code self <? 600))%Z.

(** ** [display/formatters.py] *)

(** [ResponseFormatter._get_status_color]. *)
Definition _get_status_color (status_code : Z) : str :=
  if ((200 <=? status_code) && (status_code <? 300))%Z then lit "green"
  else if ((300 <=? status_code) && (status_code <? 400))%Z then lit "yellow"
  else if ((400 <=? status_code) && (status_code <? 500))%Z then lit "orange1"
  else if ((500 <=? status_code) && (status_code <? 600))%Z then lit "red"
  else lit "white".

(** The table of [_get_status_text]. *)
Definition status_texts : PyDict.dict Z str :=
  [ (200, lit "OK");
    (201, lit "Created");
    (204, lit "No Content");
    (301, lit "Moved Permanently");
    (302, lit "Found");
    (400, lit "Bad Request");
    (401, lit "Unauthorized");
    (403, lit "Forbidden");
    (404, lit "Not Found");
    (405, lit "Method Not Allowed");
    (500, lit "Internal Server Error");
    (502, lit "Bad Gateway");
    (503, lit "Service Unavailable") ]%Z.

(** [ResponseFormatter._get_status_text]. *)
Definition _get_status_text (status_code : Z) : str :=
  PyDict.get Z.eqb status_texts status_code (lit "").

(** The header names [format_response] shows. *)
Definition shown_headers : list str :=
  [lit "content-type"; lit "content-length"; lit "server";
   lit "date"; lit "cache-control"; lit "x-ratelimit-remaining"].

(** The loop over [response.headers.items()]: [add_row] for a shown header. *)
Definition add_rows {U : UnicodeCase} (items : list (str * str))
    (headers_table : list (str * str)) : list (str * str) :=
  fold_left
    (fun table kv =>
       let '(key, value) := kv in
       if in_list (lower key) shown_headers then table ++ [(key, value)]
       else table)
    items headers_table.

(** The number [len(response.body)] that the summary and the footnotes print. *)
Definition body_size (response : HttpResponse) : nat := len (body response).

(** The three footnotes of [_format_body]. *)
Definition html_footnote (response : HttpResponse) : str :=
  lit "[dim](HTML response truncated, " ++ str_of_nat (body_size response)
  ++ lit " bytes total)[/dim]".

Definition xml_footnote (response : HttpResponse) : str :=
  lit "[dim](XML truncated, " ++ str_of_nat (body_size response)
  ++ lit " bytes total)[/dim]".

Definition text_footnote (response : HttpResponse) : str :=
  lit "[dim]... (" ++ str_of_nat (body_size response) ++ lit " bytes total)[/dim]".

(** The JSON branch (lines 70-77). *)
Definition format_json {J : JsonModule} (response : HttpResponse) : run unit :=
  match json_loads (body response) with
  | Loaded parsed =>
      let formatted := json_dumps parsed 2 false in
      console_print (RSyntax formatted (lit "json"))
  | JSONDecodeError => console_print (RText (body response))
  | LoadsRaises e => raise e
  end.

(** The HTML branch (lines 80-88). *)
Definition format_html (response : HttpResponse) : run unit :=
  let lines := firstn 10 (split newline (body response)) in
  let preview := join nl lines in
  let preview :=
    if (10 <=? List.length lines)%nat then preview ++ nl ++ lit "..." else preview in
  console_print (RSyntax preview (lit "html")) ;;
  console_print (RText (html_footnote response)).

(** The XML branch (lines 91-95). *)
Definition format_xml (response : HttpResponse) : run unit :=
  console_print (RSyntax (slice_to 500 (body response)) (lit "xml")) ;;
  if (500 <? len (body response))%nat
  then console_print (RText (xml_footnote response))
  else ret tt.

(** The plain-text branch (lines 98-104). *)
Definition format_text (response : HttpResponse) : run unit :=
  if (1000 <? len (body response))%nat then
    console_print (RText (slice_to 1000 (body response))) ;;
    console_print (RText (text_footnote response))
  else console_print (RText (body response)).

(** The value [_format_body] dispatches on. *)
Definition content_type_of (response : HttpResponse) : str :=
  PyDict.get str_eqb (headers response) (lit "content-type") (lit "").

(** [ResponseFormatter._format_body]. *)
Definition _format_body {J : JsonModule} (response : HttpResponse) : run unit :=
  let content_type := content_type_of response in
  if contains (lit "application/json") content_type then format_json response
  else if contains (lit "text/html") content_type then format_html response
  else if contains (lit "application/xml") content_type
          || contains (lit "text/xml") content_type then format_xml response
  else format_text response.

(** The text of the summary panel. *)
Definition summary (response : HttpResponse) : str :=
  let status_color := _get_status_color (status_code response) in
  lit "[" ++ status_color ++ lit "]Status:[/" ++ status_color ++ lit "] "
  ++ str_of_int (status_code response) ++ lit " "
  ++ _get_status_text (status_code response) ++ nl
  ++ lit "[cyan]Time:[/cyan] "
  ++ format_0f (elapsed_time response * 1000)%float ++ lit "ms" ++ nl
  ++ lit "[cyan]Size:[/cyan] " ++ str_of_nat (body_size response) ++ lit " bytes".

Definition summary_title (response : HttpResponse) : str :=
  lit "[bold]Response - " ++ method (request response) ++ lit " "
  ++ url (request response) ++ lit "[/bold]".

(** [ResponseFormatter.format_response]. *)
Definition format_response {U : UnicodeCase} {J : JsonModule}
    (response : HttpResponse) (show_headers : bool) : run unit :=
  let status_color := _get_status_color (status_code response) in
  console_print RBlank ;;
  console_print (RPanel (summary response) (summary_title response) status_color) ;;
  (if show_headers && PyDict.truthy (headers response) then
     console_print (RText (nl ++ lit "[bold]Headers:[/bold]")) ;;
     let headers_table := add_rows (PyDict.items (headers response)) [] in
     console_print (RTable headers_table)
   else ret tt) ;;
  console_print (RText (nl ++ lit "[bold]Body:[/bold]")) ;;
  _format_body response ;;
  console_print RBlank.

(** [print_error]. *)
Definition print_error (message : str) : run unit :=
  console_print (RText (lit "[bold red]" ++ [10007] ++ lit " Error:[/bold red] " ++ message)).

(** ** [commands/request.py] *)

Definition colon : codepoint := 58.

(** ["Header inválido: '{header}'. Formato esperado: 'Key: Value'"]. *)
Definition invalid_header_message (header : str) : str :=
  lit "Header inv" ++ [225] ++ lit "lido: '" ++ header
  ++ lit "'. Formato esperado: 'Key: Value'".

(** The [for] loop of [_parse_headers], [parsed] being the dict built so far. *)
Fixpoint parse_loop (headers : list str) (parsed : headers_dict) : run headers_dict :=
  match headers with
  | [] => ret parsed
  | header :: rest =>
      if negb (contains [colon] header) then
        print_error (invalid_header_message header) ;;
        raise Abort
      else
        match split1 colon header with
        | [key; value] =>
            parse_loop rest (PyDict.set str_eqb parsed (strip key) (strip value))
        | _ =>
            raise (ValueError (lit "not enough values to unpack (expected 2, got 1)"))
        end
  end.

(** [_parse_headers]. *)
Definition _parse_headers (headers : list str) : run headers_dict :=
  parse_loop headers (PyDict.empty str str).

(** ** [display/formatters.py], the other message helpers *)

(** [print_success]. *)
Definition print_success (message : str) : run unit :=
  console_print (RText (lit "[bold green]" ++ [10003] ++ lit "[/bold green] " ++ message)).

(** [print_info]. *)
Definition print_info (message : str) : run unit :=
  console_print (RText (lit "[cyan]" ++ [8505] ++ lit "[/cyan] " ++ message)).

(** ** [cli.py] *)

(** The [hello] command. *)
Definition hello : run unit :=
  console_print (RText (lit "[bold green]" ++ [10003] ++ lit "[/bold green] API Toolkit est"
                        ++ [225] ++ lit " funcionando!")) ;;
  console_print (RText (lit "Usa [cyan]api-toolkit --help[/cyan] para ver todos los comandos")).

(** ** [models/request_models.py], the history record *)

(** [RequestHistory]; its [id] is [history_id] here, and [created_at] is the
    time the record was made. *)
Record RequestHistory : Type := mkRequestHistory {
  history_id : Z;
  history_request : HttpRequest;
  history_response : HttpResponse;
  created_at : Z
}.

(** ** More float formatting *)

(** The decimal digits of [n], at least [width] of them. *)
Definition pad_zeros (width : nat) (digits : str) : str :=
  repeat 48 (width - List.length digits) ++ digits.

(** [n / 10^d] written with [d] digits after the point, for [n >= 0]. *)
Definition fixed_digits (d : nat) (n : Z) : str :=
  let s := pad_zeros (S d) (str_of_int n) in
  match d with
  | O => s
  | S _ => firstn (List.length s - d) s ++ lit "." ++ skipn (List.length s - d) s
  end.

(** [f"{x:.<d>f}"]: [x] rounded to [d] decimals, ties of the exact binary
    value to even. *)
Definition format_fixed (d : nat) (x : float) : str :=
  match Prim2SF x with
  | S754_zero s => (if s then lit "-" else []) ++ fixed_digits d 0
  | S754_infinity s => if s then lit "-inf" else lit "inf"
  | S754_nan => lit "nan"
  | S754_finite s m e =>
      (if s then lit "-" else [])
      ++ fixed_digits d (round_half_even (Z.to_pos (Z.pos m * 10 ^ Z.of_nat d)) e)
  end.

(** [f"{x:.2f}"]. *)
Definition format_2f (x : float) : str := format_fixed 2 x.

(** ** [core/http_client.py] *)

(** What [httpx.Client(timeout=...).request(method=, url=, headers=, content=)]
    is given. *)
Record wire_request : Type := mkWire {
  wire_method : str;
  wire_url : str;
  wire_headers : headers_dict;
  wire_content : option (list N);
  wire_timeout : Z
}.

(** How that call ends: with a response, of which the code reads
    [status_code], [dict(headers)] and [text], or with an exception. *)
Inductive transport_result : Type :=
| Responded (status : Z) (response_headers : headers_dict) (text : str)
| TimeoutException (message : str)
| ConnectError (message : str)
| OtherHTTPError (message : str)      (* any other subclass of httpx.HTTPError *)
| TransportRaises (e : exn).          (* an exception that is no httpx.HTTPError *)

(** What is outside the program: the network, the two readings of
    [time.time()] that one request makes, and [datetime.now()]. *)
Record World : Type := mkWorld {
  transport : wire_request -> transport_result;
  time_start : float;
  time_end : float;
  datetime_now : Z
}.

(** What a run does that can be seen from outside, in order. *)
Inductive event : Type :=
| Sent (w : wire_request)
| Printed (r : renderable).

(** How a run fails: with an [httpx.HTTPError] whose [str] is [message], the
    one kind the commands catch, or with any other exception. *)
Inductive failure : Type :=
| HTTPError (message : str)
| Escapes (e : exn).

Inductive result (A : Type) : Type :=
| Done (a : A)
| Fails (f : failure).

Arguments Done {A} a.
Arguments Fails {A} f.

Definition io (A : Type) : Type := (list event * result A)%type.

(** A run that only prints, as a run of the whole program. *)
Definition lift {A : Type} (m : run A) : io A :=
  (map Printed (fst m),
   match snd m with
   | Returns a => Done a
   | Raises e => Fails (Escapes e)
   end).

Definition io_bind {A B : Type} (m : io A) (f : A -> io B) : io B :=
  match m with
  | (ev, Done a) => let (ev', r) := f a in (ev ++ ev', r)
  | (ev, Fails e) => (ev, Fails e)
  end.

(** The requests sent and the values printed in a list of events. *)
Definition sent_of (events : list event) : list wire_request :=
  flat_map (fun e => match e with
                     | Sent w => [w]
                     | Printed _ => []
                     end) events.

Definition printed_of (events : list event) : list renderable :=
  flat_map (fun e => match e with
                     | Sent _ => []
                     | Printed r => [r]
                     end) events.

(** [HttpClient]: its one attribute is [self.timeout]. *)
Record HttpClient : Type := mkHttpClient {
  client_timeout : Z
}.

(** [headers or {}]. *)
Definition headers_or_empty (headers0 : option headers_dict) : headers_dict :=
  match headers0 with
  | Some d => if PyDict.truthy d then d else PyDict.empty str str
  | None => PyDict.empty str str
  end.

(** [timeout or self.timeout]: [None] and [0] are false. *)
Definition timeout_or (timeout0 : option Z) (default : Z) : Z :=
  match timeout0 with
  | Some t => if (t =? 0)%Z then default else t
  | None => default
  end.

(** [request.body.encode() if request.body else None]: [None] and the empty
    string are false; [encode] raises on a lone surrogate. *)
Definition content_of (body0 : option str) : outcome (option (list N)) :=
  match body0 with
  | Some (c :: b) =>
      match encode (c :: b) with
      | Some bytes => Returns (Some bytes)
      | None => Raises (Uncaught (lit "UnicodeEncodeError"))
      end
  | Some [] => Returns None
  | None => Returns None
  end.

(** ["Request timeout después de {elapsed_time:.2f}s"]. *)
Definition timeout_message (elapsed : float) : str :=
  lit "Request timeout despu" ++ [233] ++ lit "s de " ++ format_2f elapsed ++ lit "s".

(** ["No se pudo conectar a {url}"]. *)
Definition connect_message (url0 : str) : str := lit "No se pudo conectar a " ++ url0.

(** [HttpClient.request]. *)
Definition HttpClient_request {U : UnicodeCase} (w : World) (self : HttpClient)
    (method0 url0 : str) (headers0 : option headers_dict) (body0 : option str)
    (timeout0 : option Z) : io HttpResponse :=
  match snd (new_HttpRequest method0 url0 (headers_or_empty headers0) body0
                             (timeout_or timeout0 (client_timeout self))) with
  | Raises e => ([], Fails (Escapes e))
  | Returns request0 =>
      let start_time := time_start w in
      match content_of (req_body request0) with
      | Raises e => ([], Fails (Escapes e))
      | Returns content =>
          let wire := mkWire (method request0) (url request0) (req_headers request0)
                             content (timeout request0) in
          match transport w wire with
          | Responded status response_headers text =>
              let elapsed := (time_end w - start_time)%float in
              ([Sent wire],
               Done (mkHttpResponse status response_headers text elapsed request0
                                   (datetime_now w)))
          | TimeoutException _ =>
              let elapsed := (time_end w - start_time)%float in
              ([Sent wire], Fails (HTTPError (timeout_message elapsed)))
          | ConnectError _ =>
              ([Sent wire], Fails (HTTPError (connect_message url0)))
          | OtherHTTPError message => ([Sent wire], Fails (HTTPError message))
          | TransportRaises e => ([Sent wire], Fails (Escapes e))
          end
      end
  end.

(** [HttpClient.get], [post], [put], [delete]: [request] with the method fixed. *)
Definition HttpClient_get {U : UnicodeCase} (w : World) (self : HttpClient)
    (url0 : str) (headers0 : option headers_dict) (body0 : option str)
    (timeout0 : option Z) : io HttpResponse :=
  HttpClient_request w self (lit "GET") url0 headers0 body0 timeout0.

Definition HttpClient_post {U : UnicodeCase} (w : World) (self : HttpClient)
    (url0 : str) (headers0 : option headers_dict) (body0 : option str)
    (timeout0 : option Z) : io HttpResponse :=
  HttpClient_request w self (lit "POST") url0 headers0 body0 timeout0.

Definition HttpClient_put {U : UnicodeCase} (w : World) (self : HttpClient)
    (url0 : str) (headers0 : option headers_dict) (body0 : option str)
    (timeout0 : option Z) : io HttpResponse :=
  HttpClient_request w self (lit "PUT") url0 headers0 body0 timeout0.

Definition HttpClient_delete {U : UnicodeCase} (w : World) (self : HttpClient)
    (url0 : str) (headers0 : option headers_dict) (body0 : option str)
    (timeout0 : option Z) : io HttpResponse :=
  HttpClient_request w self (lit "DELETE") url0 headers0 body0 timeout0.

(** ** [commands/request.py], the four commands *)

(** ["Request completed in {response.elapsed_time * 1000:.0f}ms"]. *)
Definition completed_message (response : HttpResponse) : str :=
  lit "Request completed in " ++ format_0f (elapsed_time response * 1000)%float
  ++ lit "ms".

(** What the four commands do once the headers are parsed.  Their bodies are
    the same but for the call on the client, here [call]: the [try] block
    makes the call, prints the info line and the response; the handler of
    [httpx.HTTPError] prints the error and raises [click.Abort].  These are
    the calls of the block; what the block [with console.status(...)] and
    [console.clear_live()] add on a Rich console is [after_call_on_console],
    below. *)
Definition after_call {U : UnicodeCase} {J : JsonModule}
    (call : io HttpResponse) (no_headers : bool) : io unit :=
  match call with
  | (events, Done response) =>
      let (events', r) :=
        lift (print_info (completed_message response) ;;
              format_response response (negb no_headers)) in
      (events ++ events', r)
  | (events, Fails (HTTPError message)) =>
      let (events', r) := lift (print_error message ;; raise Abort) in
      (events ++ events', r)
  | (events, Fails (Escapes e)) => (events, Fails (Escapes e))
  end.

(** [get_command]: [client.get(url, headers=headers)]. *)
Definition get_command {U : UnicodeCase} {J : JsonModule} (w : World)
    (url0 : str) (header : list str) (timeout0 : Z) (no_headers : bool) : io unit :=
  io_bind (lift (_parse_headers header)) (fun headers0 =>
    let client := mkHttpClient timeout0 in
    after_call (HttpClient_get w client url0 (Some headers0) None None) no_headers).

(** [post_command]: [client.post(url, headers=headers, body=data)]. *)
Definition post_command {U : UnicodeCase} {J : JsonModule} (w : World)
    (url0 : str) (header : list str) (data : option str) (timeout0 : Z)
    (no_headers : bool) : io unit :=
  io_bind (lift (_parse_headers header)) (fun headers0 =>
    let client := mkHttpClient timeout0 in
    after_call (HttpClient_post w client url0 (Some headers0) data None) no_headers).

(** [put_command]: [client.put(url, headers=headers, body=data)]. *)
Definition put_command {U : UnicodeCase} {J : JsonModule} (w : World)
    (url0 : str) (header : list str) (data : option str) (timeout0 : Z)
    (no_headers : bool) : io unit :=
  io_bind (lift (_parse_headers header)) (fun headers0 =>
    let client := mkHttpClient timeout0 in
    after_call (HttpClient_put w client url0 (Some headers0) data None) no_headers).

(** [delete_command]: [client.delete(url, headers=headers)]. *)
Definition delete_command {U : UnicodeCase} {J : JsonModule} (w : World)
    (url0 : str) (header : list str) (timeout0 : Z) (no_headers : bool) : io unit :=
  io_bind (lift (_parse_headers header)) (fun headers0 =>
    let client := mkHttpClient timeout0 in
    after_call (HttpClient_delete w client url0 (Some headers0) None None) no_headers).

(** ** [commands/request.py], the four commands on a Rich console *)

(** The end of the block [with console.status(...)], reached after the block
    has called [console.clear_live()]: where that exit raises, its
    [IndexError] replaces the way the block ended. *)
Definition leave_status {R : RichConsole} {A : Type} (m : io A) : io A :=
  if status_exit_raises then (fst m, Fails (Escapes IndexError)) else m.

(** The block [with console.status(...)] of a command.  [console.clear_live()]
    is called once the client has returned and in the handler of
    [httpx.HTTPError]; an exception of another kind leaves the block without
    that call.  The spinner itself is transient and is not recorded. *)
Definition after_call_on_console {U : UnicodeCase} {J : JsonModule}
    {R : RichConsole} (call : io HttpResponse) (no_headers : bool) : io unit :=
  match call with
  | (events, Done response) =>
      let (events', r) :=
        lift (on_console (print_info (completed_message response) ;;
                          format_response response (negb no_headers))) in
      leave_status (events ++ events', r)
  | (events, Fails (HTTPError message)) =>
      let (events', r) := lift (on_console (print_error message ;; raise Abort)) in
      leave_status (events ++ events', r)
  | (events, Fails (Escapes e)) => (events, Fails (Escapes e))
  end.

Definition get_command_on_console {U : UnicodeCase} {J : JsonModule}
    {R : RichConsole} (w : World) (url0 : str) (header : list str) (timeout0 : Z)
    (no_headers : bool) : io unit :=
  io_bind (lift (on_console (_parse_headers header))) (fun headers0 =>
    let client := mkHttpClient timeout0 in
    after_call_on_console (HttpClient_get w client url0 (Some headers0) None None)
                          no_headers).

Definition post_command_on_console {U : UnicodeCase} {J : JsonModule}
    {R : RichConsole} (w : World) (url0 : str) (header : list str)
    (data : option str) (timeout0 : Z) (no_headers : bool) : io unit :=
  io_bind (lift (on_console (_parse_headers header))) (fun headers0 =>
    let client := mkHttpClient timeout0 in
    after_call_on_console (HttpClient_post w client url0 (Some headers0) data None)
                          no_headers).

Definition put_command_on_console {U : UnicodeCase} {J : JsonModule}
    {R : RichConsole} (w : World) (url0 : str) (header : list str)
    (data : option str) (timeout0 : Z) (no_headers : bool) : io unit :=
  io_bind (lift (on_console (_parse_headers header))) (fun headers0 =>
    let client := mkHttpClient timeout0 in
    after_call_on_console (HttpClient_put w client url0 (Some headers0) data None)
                          no_headers).

Definition delete_command_on_console {U : UnicodeCase} {J : JsonModule}
    {R : RichConsole} (w : World) (url0 : str) (header : list str) (timeout0 : Z)
    (no_headers : bool) : io unit :=
  io_bind (lift (on_console (_parse_headers header))) (fun headers0 =>
    let client := mkHttpClient timeout0 in
    after_call_on_console (HttpClient_delete w client url0 (Some headers0) None None)
                          no_headers).

(** ** Reference instances of the library functions

    The properties below hold for every [UnicodeCase], every [JsonModule] and
    every [RichConsole].  To run the model on concrete responses, instances
    are fixed here: case mapping restricted to Basic Latin, a JSON module for
    documents without floating-point numbers, and the tag matching of Rich's
    markup.  A document with a fraction, an exponent, [NaN] or [Infinity] is
    outside the JSON instance: Python parses it, and [loads] here ends with
    [Uncaught NotImplementedError] instead of a value. *)

#[export] Instance BasicLatinCase : UnicodeCase := {
  lower := map ascii_lower;
  upper := map ascii_upper
}.

Module RefJson.

(** What [json.loads] builds, floats apart: [None], [bool], [int], [str],
    [list], [dict]. *)
#[warnings="-register-all"]
Inductive json : Type :=
| JNull
| JBool (b : bool)
| JInt (z : Z)
| JStr (s : str)
| JList (l : list json)
| JDict (d : list (str * json)).

Inductive scan (A : Type) : Type :=
| Ok (a : A) (rest : str)
| Bad                      (* not JSON *)
| Float.                   (* a float: outside this instance *)

Arguments Ok {A} a rest.
Arguments Bad {A}.
Arguments Float {A}.

Definition is_ws (c : codepoint) : bool :=
  (c =? 32) || (c =? 9) || (c =? 10) || (c =? 13).

Fixpoint skip_ws (s : str) : str :=
  match s with
  | [] => []
  | c :: s' => if is_ws c then skip_ws s' else s
  end.

Definition is_digit (c : codepoint) : bool := (48 <=? c) && (c <=? 57).

Definition hex_value (c : codepoint) : option N :=
  if is_digit c then Some (c - 48)
  else if (97 <=? c) && (c <=? 102) then Some (c - 87)
  else if (65 <=? c) && (c <=? 70) then Some (c - 55)
  else None.

Definition hex4 (a b c d : codepoint) : option N :=
  match hex_value a, hex_value b, hex_value c, hex_value d with
  | Some x, Some y, Some z, Some w => Some (((x * 16 + y) * 16 + z) * 16 + w)
  | _, _, _, _ => None
  end.

Definition unescape (c : codepoint) : option codepoint :=
  if c =? 34 then Some 34 else if c =? 92 then Some 92
  else if c =? 47 then Some 47 else if c =? 98 then Some 8
  else if c =? 102 then Some 12 else if c =? 110 then Some 10
  else if c =? 114 then Some 13 else if c =? 116 then Some 9
  else None.

Definition push (c : codepoint) (r : option (str * str)) : option (str * str) :=
  match r with
  | Some (s, rest) => Some (c :: s, rest)
  | None => None
  end.

(** The low surrogate escape that may follow a high one. *)
Definition low_surrogate (s : str) : option (N * str) :=
  match s with
  | b :: u :: a2 :: b2 :: c2 :: d2 :: rest =>
      if (b =? 92) && (u =? 117) then
        match hex4 a2 b2 c2 d2 with
        | Some lo => if (56320 <=? lo) && (lo <=? 57343) then Some (lo, rest) else None
        | None => None
        end
      else None
  | _ => None
  end.

(** A string, from after its opening quote to its closing quote. *)
Fixpoint scan_string (s : str) : option (str * str) :=
  match s with
  | [] => None
  | c :: rest =>
      if c =? 34 then Some ([], rest)
      else if c =? 92 then
        match rest with
        | [] => None
        | e :: rest1 =>
            if e =? 117 then
              match rest1 with
              | a :: b :: c1 :: d :: rest2 =>
                  match hex4 a b c1 d with
                  | None => None
                  | Some hi =>
                      if (55296 <=? hi) && (hi <=? 56319) then
                        match rest2 with
                        | _ :: _ :: _ :: _ :: _ :: _ :: rest3 =>
                            match low_surrogate rest2 with
                            | Some (lo, _) =>
                                push (65536 + (hi - 55296) * 1024 + (lo - 56320))
                                     (scan_string rest3)
                            | None => push hi (scan_string rest2)
                            end
                        | _ => push hi (scan_string rest2)
                        end
                      else push hi (scan_string rest2)
                  end
              | _ => None
              end
            else
              match unescape e with
              | Some u => push u (scan_string rest1)
              | None => None
              end
        end
      else if c <? 32 then None
      else push c (scan_string rest)
  end.

Fixpoint scan_digits (s : str) (acc : Z) : Z * str :=
  match s with
  | c :: s' => if is_digit c then scan_digits s' (acc * 10 + Z.of_N (c - 48))%Z else (acc, s)
  | [] => (acc, s)
  end.

(** Does a fraction ([.d]) or an exponent ([e], [e+], [e-] and a digit) start here? *)
Definition starts_float_tail (s : str) : bool :=
  match s with
  | c :: d :: s' =>
      ((c =? 46) && is_digit d)
      || (((c =? 101) || (c =? 69))
          && (is_digit d
              || (((d =? 43) || (d =? 45))
                  && match s' with
                     | x :: _ => is_digit x
                     | [] => false
                     end)))
  | _ => false
  end.

(** The integer part of a number: an optional minus sign, then [0] alone or
    a nonzero digit and any digits. *)
Definition scan_number (s : str) : scan json :=
  let '(neg, s1) :=
    match s with
    | c :: s' => if c =? 45 then (true, s') else (false, s)
    | [] => (false, s)
    end in
  match s1 with
  | c :: s2 =>
      if is_digit c then
        let '(z, rest) :=
          if c =? 48 then (0%Z, s2) else scan_digits s1 0%Z in
        if starts_float_tail rest then Float
        else Ok (JInt (if neg then - z else z)%Z) rest
      else Bad
  | [] => Bad
  end.

Definition is_float_name (s : str) : bool :=
  startswith (lit "NaN") s || startswith (lit "Infinity") s
  || startswith (lit "-Infinity") s.

(** [scan_once]: one value at the head of [s]; [scan_items] and [scan_pairs]
    read what follows the first element of a list and of a dict. *)
Fixpoint scan_value (fuel : nat) (s : str) : scan json :=
  match fuel with
  | O => Bad
  | S fuel' =>
      match s with
      | [] => Bad
      | c :: rest =>
          if c =? 34 then
            match scan_string rest with
            | Some (x, rest') => Ok (JStr x) rest'
            | None => Bad
            end
          else if c =? 123 then
            match skip_ws rest with
            | c1 :: rest1 =>
                if c1 =? 125 then Ok (JDict []) rest1
                else scan_pairs fuel' (c1 :: rest1) []
            | [] => Bad
            end
          else if c =? 91 then
            match skip_ws rest with
            | c1 :: rest1 =>
                if c1 =? 93 then Ok (JList []) rest1
                else scan_items fuel' (c1 :: rest1) []
            | [] => Bad
            end
          else if startswith (lit "null") s then Ok JNull (skipn 4 s)
          else if startswith (lit "true") s then Ok (JBool true) (skipn 4 s)
          else if startswith (lit "false") s then Ok (JBool false) (skipn 5 s)
          else if is_float_name s then Float
          else scan_number s
      end
  end

with scan_items (fuel : nat) (s : str) (acc : list json) : scan json :=
  match fuel with
  | O => Bad
  | S fuel' =>
      match scan_value fuel' s with
      | Ok v rest =>
          match skip_ws rest with
          | c :: rest1 =>
              if c =? 93 then Ok (JList (rev (v :: acc))) rest1
              else if c =? 44 then scan_items fuel' (skip_ws rest1) (v :: acc)
              else Bad
          | [] => Bad
          end
      | Bad => Bad
      | Float => Float
      end
  end

with scan_pairs (fuel : nat) (s : str) (acc : list (str * json)) : scan json :=
  match fuel with
  | O => Bad
  | S fuel' =>
      match s with
      | q :: s1 =>
          if q =? 34 then
            match scan_string s1 with
            | Some (key, rest) =>
                match skip_ws rest with
                | c :: rest1 =>
                    if c =? 58 then
                      match scan_value fuel' (skip_ws rest1) with
                      | Ok v rest2 =>
                          let acc' := PyDict.set str_eqb acc key v in
                          match skip_ws rest2 with
                          | c2 :: rest3 =>
                              if c2 =? 125 then Ok (JDict acc') rest3
                              else if c2 =? 44 then scan_pairs fuel' (skip_ws rest3) acc'
                              else Bad
                          | [] => Bad
                          end
                      | Bad => Bad
                      | Float => Float
                      end
                    else Bad
                | [] => Bad
                end
            | None => Bad
            end
          else Bad
      | [] => Bad
      end
  end.

(** [json.loads(s)].  The fuel is more than twice the length of the text:
    a nesting level or an element costs at most two units and consumes at
    least one character. *)
Definition loads (s : str) : loads_result json :=
  match scan_value (2 * List.length s + 2) (skip_ws s) with
  | Ok v rest =>
      match skip_ws rest with
      | [] => Loaded v
      | _ :: _ => JSONDecodeError
      end
  | Bad => JSONDecodeError
  | Float => LoadsRaises (Uncaught (lit "NotImplementedError"))
  end.

Definition hex_digit (n : N) : codepoint := if n <? 10 then 48 + n else 87 + n.

(** [\uXXXX]. *)
Definition u_escape (c : N) : str :=
  [92; 117; hex_digit (c / 4096); hex_digit ((c / 256) mod 16);
   hex_digit ((c / 16) mod 16); hex_digit (c mod 16)].

Definition escape_char (ensure_ascii : bool) (c : codepoint) : str :=
  if c =? 34 then [92; 34] else if c =? 92 then [92; 92]
  else if c =? 10 then [92; 110] else if c =? 13 then [92; 114]
  else if c =? 9 then [92; 116] else if c =? 12 then [92; 102]
  else if c =? 8 then [92; 98]
  else if c <? 32 then u_escape c
  else if ensure_ascii && negb (c <? 127) then
    if c <? 65536 then u_escape c
    else u_escape (55296 + (c - 65536) / 1024) ++ u_escape (56320 + (c - 65536) mod 1024)
  else [c].

Definition dump_string (ensure_ascii : bool) (s : str) : str :=
  [34] ++ flat_map (escape_char ensure_ascii) s ++ [34].

Definition newline_indent (indent level : nat) : str :=
  nl ++ repeat 32 (indent * level).

(** [json.dumps(v, indent=indent, ensure_ascii=ensure_ascii)] at nesting
    depth [level]. *)
Fixpoint dump (indent : nat) (ensure_ascii : bool) (level : nat) (v : json) : str :=
  match v with
  | JNull => lit "null"
  | JBool true => lit "true"
  | JBool false => lit "false"
  | JInt z => str_of_int z
  | JStr s => dump_string ensure_ascii s
  | JList [] => lit "[]"
  | JList l =>
      lit "[" ++ newline_indent indent (S level)
      ++ join (lit "," ++ newline_indent indent (S level))
              (map (dump indent ensure_ascii (S level)) l)
      ++ newline_indent indent level ++ lit "]"
  | JDict [] => lit "{}"
  | JDict d =>
      lit "{" ++ newline_indent indent (S level)
      ++ join (lit "," ++ newline_indent indent (S level))
              (map (fun kv =>
                      dump_string ensure_ascii (fst kv) ++ lit ": "
                      ++ dump indent ensure_ascii (S level) (snd kv)) d)
      ++ newline_indent indent level ++ lit "}"
  end.

Definition dumps (v : json) (indent : nat) (ensure_ascii : bool) : str :=
  dump indent ensure_ascii 0 v.

End RefJson.

#[export] Instance ReferenceJson : JsonModule := {
  json_value := RefJson.json;
  json_loads := RefJson.loads;
  json_dumps := RefJson.dumps
}.

(** The tags of console markup, after [rich.markup] (Rich 13.7.1): [_parse]
    finds the tags with the expression [RE_TAGS] (any backslashes, an opening
    bracket, one of [a-z#/@], then as few characters other than an opening
    bracket as lead to a closing bracket), [render] keeps a stack of the open
    tags.  Two simplifications: tag names are
    compared after [strip] and lower-casing, which is what [Style.normalize]
    does to a name that is no style definition and leaves the one-word styles
    of this code as they are, where Rich also identifies different spellings
    of one style; and the parameters of an [@] handler are not evaluated. *)
Module RefRich.

(** The characters a tag starts with: [a-z#/@]. *)
Definition tag_start (c : codepoint) : bool :=
  ((97 <=? c) && (c <=? 122)) || (c =? 35) || (c =? 47) || (c =? 64).

(** The rest of a tag: the text up to the first closing bracket, when no
    opening bracket comes before it; with it, what follows the tag. *)
Fixpoint tag_rest (s : str) : option (str * str) :=
  match s with
  | [] => None
  | c :: s' =>
      if c =? 93 then Some ([], s')
      else if c =? 91 then None
      else match tag_rest s' with
           | Some (text, after) => Some (c :: text, after)
           | None => None
           end
  end.

(** [tag_text.partition("=")[0]]. *)
Definition tag_name (tag_text : str) : str :=
  match partition 61 tag_text with
  | Some (name, _) => name
  | None => tag_text
  end.

Definition normalize (name : str) : str := map ascii_lower (strip name).

(** [pop_style]: the stack without its topmost tag named [name]. *)
Fixpoint pop_style (name : str) (stack : list str) : option (list str) :=
  match stack with
  | [] => None
  | top :: below =>
      if str_eqb top name then Some below
      else match pop_style name below with
           | Some below' => Some (top :: below')
           | None => None
           end
  end.

(** A closing tag [name], which starts with a slash: the stack it leaves, or
    nothing when it closes no open tag. *)
Definition close (name : str) (stack : list str) : option (list str) :=
  match strip (tl name) with
  | [] => match stack with
          | [] => None
          | _ :: below => Some below
          end
  | style_name => pop_style (normalize style_name) stack
  end.

(** The loop of [render] over the tags of [s]; [escapes] counts the
    backslashes just before the current character, an odd number of which
    makes a tag plain text.  The result is [true] when [MarkupError] is
    raised. *)
Fixpoint scan (fuel : nat) (s : str) (escapes : nat) (stack : list str) : bool :=
  match fuel with
  | O => false
  | S fuel' =>
      match s with
      | [] => false
      | c :: s' =>
          if c =? 92 then scan fuel' s' (S escapes) stack
          else if c =? 91 then
            match s' with
            | [] => false
            | t :: s'' =>
                if tag_start t then
                  match tag_rest s'' with
                  | Some (text, after) =>
                      if Nat.odd escapes then scan fuel' after 0%nat stack
                      else
                        let name := tag_name (t :: text) in
                        if t =? 47 then
                          match close name stack with
                          | Some stack' => scan fuel' after 0%nat stack'
                          | None => true
                          end
                        else scan fuel' after 0%nat (normalize name :: stack)
                  | None => scan fuel' s' 0%nat stack
                  end
                else scan fuel' s' 0%nat stack
            end
          else scan fuel' s' 0%nat stack
      end
  end.

Definition raises (markup : str) : bool := scan (S (len markup)) markup 0%nat [].

End RefRich.

(** Rich as in version 13: leaving [console.status] raises nothing. *)
#[export] Instance ReferenceRich : RichConsole := {
  markup_raises := RefRich.raises;
  status_exit_raises := false
}.

(** Rich where leaving [console.status] after [console.clear_live()] raises. *)
Definition PoppingRich : RichConsole := {|
  markup_raises := RefRich.raises;
  status_exit_raises := true
|}.

(** ** Vocabulary of the properties *)

(** [sub] occurs in [s]: some run of consecutive characters of [s] is [sub]. *)
Definition occurs_in (sub s : str) : Prop :=
  exists before after : str, s = before ++ sub ++ after.

(** The four ways [_format_body] renders a body. *)
Inductive branch : Type := Json | Html | Xml | PlainText.

Definition render {J : JsonModule} (b : branch) (response : HttpResponse) : run unit :=
  match b with
  | Json => format_json response
  | Html => format_html response
  | Xml => format_xml response
  | PlainText => format_text response
  end.

(** First match wins, on the content type exactly as it is spelled. *)
Inductive selects (content_type : str) : branch -> Prop :=
| selects_json :
    occurs_in (lit "application/json") content_type ->
    selects content_type Json
| selects_html :
    ~ occurs_in (lit "application/json") content_type ->
    occurs_in (lit "text/html") content_type ->
    selects content_type Html
| selects_xml :
    ~ occurs_in (lit "application/json") content_type ->
    ~ occurs_in (lit "text/html") content_type ->
    occurs_in (lit "application/xml") content_type
    \/ occurs_in (lit "text/xml") content_type ->
    selects content_type Xml
| selects_text :
    ~ occurs_in (lit "application/json") content_type ->
    ~ occurs_in (lit "text/html") content_type ->
    ~ occurs_in (lit "application/xml") content_type ->
    ~ occurs_in (lit "text/xml") content_type ->
    selects content_type PlainText.

(** Two header names are the same up to case. *)
Definition ci_eqb {U : UnicodeCase} (a b : str) : bool := str_eqb (lower a) (lower b).

(** [key] is, up to case, one of the six names of [shown_headers]. *)
Definition on_allow_list {U : UnicodeCase} (key : str) : bool :=
  existsb (ci_eqb key) shown_headers.

(** The rows of every table among what was printed. *)
Definition table_rows (out : list renderable) : list (str * str) :=
  flat_map (fun r => match r with
                     | RTable rows => rows
                     | _ => []
                     end) out.

(** What [format_response] prints for the headers. *)
Definition header_block {U : UnicodeCase} (response : HttpResponse)
    (show_headers : bool) : list renderable :=
  if show_headers && PyDict.truthy (headers response) then
    [RText (nl ++ lit "[bold]Headers:[/bold]");
     RTable (add_rows (PyDict.items (headers response)) [])]
  else [].

(** Everything [format_response] prints before the body. *)
Definition preamble {U : UnicodeCase} (response : HttpResponse)
    (show_headers : bool) : list renderable :=
  [RBlank;
   RPanel (summary response) (summary_title response)
          (_get_status_color (status_code response))]
  ++ header_block response show_headers
  ++ [RText (nl ++ lit "[bold]Body:[/bold]")].

(** The codes that have a phrase. *)
Definition curated_codes : list Z :=
  [200; 201; 204; 301; 302; 400; 401; 403; 404; 405; 500; 502; 503]%Z.

(** An entry of [--header] read as the claim describes it: cut at the first
    colon, both sides stripped. *)
Definition header_entry (header : str) (kv : str * str) : Prop :=
  exists before after : str,
    header = before ++ colon :: after /\ ~ In colon before
    /\ kv = (strip before, strip after).

(** No whitespace at either end. *)
Definition trimmed (s : str) : Prop :=
  (forall c rest, s = c :: rest -> is_space c = false)
  /\ (forall init c, s = init ++ [c] -> is_space c = false).

(** [core] is [s] without the whitespace at its two ends. *)
Definition stripped_of (s core : str) : Prop :=
  exists left right : str,
    s = left ++ core ++ right
    /\ forallb is_space left = true /\ forallb is_space right = true
    /\ trimmed core.

(** An entry of [--header] read as a pair: the text before its first colon
    and the text after it, each without the whitespace at its ends. *)
Definition reads_as (header : str) (kv : str * str) : Prop :=
  exists before after : str,
    header = before ++ colon :: after /\ ~ In colon before
    /\ stripped_of before (fst kv) /\ stripped_of after (snd kv).

(** The value a sequence of assignments leaves under [k]: that of the last
    pair whose key is [k]. *)
Definition last_binding (pairs : list (str * str)) (k : str) (v : str) : Prop :=
  exists earlier later : list (str * str),
    pairs = earlier ++ (k, v) :: later /\ ~ In k (map fst later).

(** [k in d] and [d[k]]. *)
Definition binds (d : headers_dict) (k v : str) : Prop :=
  In (k, v) d /\ NoDup (PyDict.keys d).

(** The dict left by assigning [pairs] in order, starting from [d]. *)
Definition assign (d : headers_dict) (pairs : list (str * str)) : headers_dict :=
  fold_left (fun d kv => PyDict.set str_eqb d (fst kv) (snd kv)) pairs d.

(** ** Sample values *)

Definition sample_request : HttpRequest :=
  mkHttpRequest (lit "GET") (lit "https://api.example.com/items") [] None 30.

(** A response with the given content type and body: status 200, 125 ms. *)
Definition sample_response (content_type body0 : str) : HttpResponse :=
  mkHttpResponse 200 [(lit "content-type", content_type)] body0 0.125%float
                 sample_request 0.

(** The example of the specification: 404 on a DELETE, 0.123 s. *)
#[warnings="-inexact-float"]
Definition not_found_response : HttpResponse :=
  mkHttpResponse 404 [(lit "content-type", lit "application/json")]
                 (qlit "{'error':'not found'}") 0.123%float
                 (mkHttpRequest (lit "DELETE") (lit "https://api.example.com/users/5")
                                [] None 30)
                 0.

(** [n] lines [x], joined by newlines. *)
Definition lines_of_x (n : nat) : str := join nl (repeat (lit "x") n).

(** ** Vocabulary of the further properties *)

(** On a string of Basic Latin only, [upper] changes [a]-[z] and nothing else. *)
Definition upper_on_ascii (U : UnicodeCase) : Prop :=
  forall s : str, forallb is_ascii s = true -> upper s = map ascii_upper s.

(** The four commands of the [request] group. *)
Inductive verb : Type := GET | POST | PUT | DELETE.

Definition verb_name (v : verb) : str :=
  match v with
  | GET => lit "GET"
  | POST => lit "POST"
  | PUT => lit "PUT"
  | DELETE => lit "DELETE"
  end.

(** The body a command hands to the client: [--data] for [post] and [put],
    none for [get] and [delete], which have no such option. *)
Definition verb_body (v : verb) (data : option str) : option str :=
  match v with
  | GET | DELETE => None
  | POST | PUT => data
  end.

(** The convenience method of a verb. *)
Definition client_call {U : UnicodeCase} (v : verb) (w : World) (self : HttpClient)
    (url0 : str) (headers0 : option headers_dict) (body0 : option str)
    (timeout0 : option Z) : io HttpResponse :=
  match v with
  | GET => HttpClient_get w self url0 headers0 body0 timeout0
  | POST => HttpClient_post w self url0 headers0 body0 timeout0
  | PUT => HttpClient_put w self url0 headers0 body0 timeout0
  | DELETE => HttpClient_delete w self url0 headers0 body0 timeout0
  end.

(** What [print_error] prints for [message]. *)
Definition error_line (message : str) : renderable :=
  RText (lit "[bold red]" ++ [10007] ++ lit " Error:[/bold red] " ++ message).

(** The command of a verb; [data] is read by [post] and [put] only. *)
Definition run_command {U : UnicodeCase} {J : JsonModule} (v : verb) (w : World)
    (url0 : str) (header : list str) (data : option str) (timeout0 : Z)
    (no_headers : bool) : io unit :=
  match v with
  | GET => get_command w url0 header timeout0 no_headers
  | POST => post_command w url0 header data timeout0 no_headers
  | PUT => put_command w url0 header data timeout0 no_headers
  | DELETE => delete_command w url0 header timeout0 no_headers
  end.

(** The command of a verb on a Rich console. *)
Definition run_command_on_console {U : UnicodeCase} {J : JsonModule}
    {R : RichConsole} (v : verb) (w : World) (url0 : str) (header : list str)
    (data : option str) (timeout0 : Z) (no_headers : bool) : io unit :=
  match v with
  | GET => get_command_on_console w url0 header timeout0 no_headers
  | POST => post_command_on_console w url0 header data timeout0 no_headers
  | PUT => put_command_on_console w url0 header data timeout0 no_headers
  | DELETE => delete_command_on_console w url0 header timeout0 no_headers
  end.

(** The tables among what was printed, each with its rows. *)
Definition tables (out : list renderable) : list (list (str * str)) :=
  flat_map (fun r => match r with
                     | RTable rows => [rows]
                     | _ => []
                     end) out.

(** The first entry of [--header] that has no colon. *)
Definition first_bad_header (hs : list str) : option str :=
  find (fun h => negb (contains [colon] h)) hs.

(** A world whose network answers every request with [answer]; the request
    takes a quarter of a second. *)
Definition sample_world (answer : transport_result) : World :=
  mkWorld (fun _ => answer) 10%float 10.25%float 0.

(** A server that answers with a small JSON document. *)
Definition json_server : World :=
  sample_world (Responded 200 [(lit "content-type", lit "application/json");
                               (lit "x-request-id", lit "7")]
                          (qlit "{'ok':true}")).

(* ================================================================== *)
(** * Part II: properties *)
(* ================================================================== *)

(** Case analysis on every integer comparison of the goal. *)
Ltac case_bounds :=
  repeat match goal with
         | |- context [(?a <=? ?b)%Z] => destruct (Z.leb_spec a b)
         | |- context [(?a <? ?b)%Z] => destruct (Z.ltb_spec a b)
         end.

(** ** Strings *)

Lemma str_eqb_refl (a : str) : str_eqb a a = true.
Proof.
  induction a as [|x a IH]; simpl; [reflexivity|].
  now rewrite N.eqb_refl, IH.
Qed.

Lemma str_eqb_eq (a b : str) : str_eqb a b = true <-> a = b.
Proof.
  split.
  - revert b; induction a as [|x a IH]; intros [|y b] H; simpl in H;
      try discriminate; [reflexivity|].
    apply andb_true_iff in H as [Hxy Hab].
    apply N.eqb_eq in Hxy. f_equal; auto.
  - intros ->. apply str_eqb_refl.
Qed.

Lemma str_eqb_neq (a b : str) : str_eqb a b = false <-> a <> b.
Proof.
  rewrite <- str_eqb_eq. destruct (str_eqb a b); split; congruence.
Qed.

Lemma in_list_In (x : str) (xs : list str) : in_list x xs = true <-> In x xs.
Proof.
  unfold in_list. rewrite existsb_exists. split.
  - intros (y & Hy & E). apply str_eqb_eq in E. now subst.
  - intros H. exists x. split; [assumption | apply str_eqb_refl].
Qed.

Lemma startswith_prefix (p s : str) :
  startswith p s = true <-> exists rest, s = p ++ rest.
Proof.
  revert s; induction p as [|x p IH]; intros s; simpl.
  - split; [intros _; now exists s | reflexivity].
  - destruct s as [|y s].
    + split; [discriminate | intros (rest & H); discriminate].
    + rewrite andb_true_iff, N.eqb_eq, IH. split.
      * intros (-> & rest & ->). now exists rest.
      * intros (rest & H). injection H as -> ->. split; [reflexivity | now exists rest].
Qed.

(** The [in] operator on strings is the substring test. *)
Lemma contains_occurs (sub s : str) : contains sub s = true <-> occurs_in sub s.
Proof.
  unfold occurs_in. induction s as [|c s IH].
  - simpl. rewrite orb_false_r, startswith_prefix. split.
    + intros (rest & H). exists [], rest. exact H.
    + intros (before & after & H). destruct before as [|b before].
      * now exists after.
      * discriminate.
  - simpl. rewrite orb_true_iff, startswith_prefix, IH. split.
    + intros [(rest & H) | (before & after & ->)].
      * exists [], rest. exact H.
      * now exists (c :: before), after.
    + intros (before & after & H). destruct before as [|b before].
      * left. now exists after.
      * right. injection H as -> ->. now exists before, after.
Qed.

Lemma contains_absent (sub s : str) : contains sub s = false <-> ~ occurs_in sub s.
Proof.
  rewrite <- contains_occurs. destruct (contains sub s); split; congruence.
Qed.

(** [c in s] for a one-character [c]. *)
Lemma contains_char (c : codepoint) (s : str) : contains [c] s = true <-> In c s.
Proof.
  induction s as [|x s IH]; simpl.
  - split; [discriminate | tauto].
  - rewrite orb_true_iff, IH, andb_true_r, N.eqb_eq. split; intros [H|H]; auto.
Qed.

Lemma split_not_nil (sep : codepoint) (s : str) : split sep s <> [].
Proof.
  induction s as [|c s IH]; simpl; [discriminate|].
  destruct (c =? sep); [discriminate|].
  destruct (split sep s); [contradiction | discriminate].
Qed.

(** Joining the parts of a split with the separator gives the string back. *)
Lemma join_split (sep : codepoint) (s : str) : join [sep] (split sep s) = s.
Proof.
  induction s as [|c s IH]; simpl; [reflexivity|].
  destruct (N.eqb_spec c sep) as [->|Hne].
  - pose proof (split_not_nil sep s) as Hnn.
    destruct (split sep s) as [|p ps]; [contradiction|].
    simpl in *. now rewrite IH.
  - pose proof (split_not_nil sep s) as Hnn.
    destruct (split sep s) as [|p ps]; [contradiction|].
    destruct ps as [|q ps]; simpl in *; now rewrite <- IH.
Qed.

(** No part of a split holds the separator. *)
Lemma split_parts_free (sep : codepoint) (s : str) :
  Forall (fun part => ~ In sep part) (split sep s).
Proof.
  induction s as [|c s IH]; simpl.
  - constructor; [tauto | constructor].
  - destruct (N.eqb_spec c sep) as [->|Hne].
    + constructor; [tauto | assumption].
    + destruct (split sep s) as [|p ps]; [repeat constructor; simpl; intuition|].
      inversion IH; subst. constructor; [|assumption].
      simpl. intros [H|H]; [congruence | contradiction].
Qed.

Lemma partition_some (sep : codepoint) (s before after : str) :
  partition sep s = Some (before, after) <->
  s = before ++ sep :: after /\ ~ In sep before.
Proof.
  revert before; induction s as [|c s IH]; intros before; simpl.
  - split; [discriminate|]. intros [H _]. destruct before; discriminate.
  - destruct (N.eqb_spec c sep) as [->|Hne].
    + split.
      * intros H. injection H as <- <-. split; [reflexivity | tauto].
      * intros [H Hn]. destruct before as [|b before].
        -- simpl in H. now injection H as ->.
        -- injection H as <- _. exfalso. apply Hn. now left.
    + destruct (partition sep s) as [[b a]|] eqn:E.
      * split.
        -- intros H. injection H as <- <-.
           destruct (proj1 (IH b) eq_refl) as [-> Hn]. split; [reflexivity|].
           simpl. intros [H|H]; [congruence | contradiction].
        -- intros [H Hn]. destruct before as [|x before]; simpl in H.
           ++ injection H as -> _. contradiction.
           ++ injection H as <- ->.
              assert (Hb : Some (b, a) = Some (before, after)).
              { apply IH. split; [reflexivity|]. intros Hi. apply Hn. now right. }
              now injection Hb as -> ->.
      * split; [discriminate|]. intros [H Hn].
        destruct before as [|x before]; simpl in H.
        -- injection H as -> _. contradiction.
        -- injection H as <- ->.
           assert (Hb : None = Some (before, after)).
           { apply IH. split; [reflexivity|]. intros Hi. apply Hn. now right. }
           discriminate.
Qed.

Lemma partition_none (sep : codepoint) (s : str) :
  partition sep s = None <-> ~ In sep s.
Proof.
  induction s as [|c s IH]; simpl.
  - split; [tauto | reflexivity].
  - destruct (N.eqb_spec c sep) as [->|Hne].
    + split; [discriminate | intros H; exfalso; apply H; now left].
    + destruct (partition sep s) as [[b a]|].
      * split; [discriminate|]. intros H. exfalso.
        assert (Hn : ~ In sep s) by (intros Hi; apply H; now right).
        apply IH in Hn. discriminate.
      * split; [|reflexivity]. intros _ [H|H]; [congruence|].
        now apply (proj1 IH).
Qed.

(** [strip] removes whitespace, and only whitespace, from both ends. *)
Lemma lstrip_spec (s : str) :
  exists ws : str,
    s = ws ++ lstrip s /\ forallb is_space ws = true
    /\ forall c rest, lstrip s = c :: rest -> is_space c = false.
Proof.
  induction s as [|c s (ws & Heq & Hws & Hhd)]; simpl.
  - exists []. repeat split. discriminate.
  - destruct (is_space c) eqn:E.
    + exists (c :: ws). simpl. rewrite E, Hws. repeat split.
      * now f_equal.
      * exact Hhd.
    + exists []. repeat split. intros c' rest H. now injection H as <- _.
Qed.

Lemma forallb_rev (f : codepoint -> bool) (l : str) :
  forallb f l = true -> forallb f (rev l) = true.
Proof.
  rewrite !forallb_forall. intros H x Hx. apply H. now apply in_rev.
Qed.

Lemma rstrip_spec (s : str) :
  exists ws : str,
    s = rstrip s ++ ws /\ forallb is_space ws = true
    /\ forall init c, rstrip s = init ++ [c] -> is_space c = false.
Proof.
  unfold rstrip. destruct (lstrip_spec (rev s)) as (ws & Heq & Hws & Hhd).
  exists (rev ws). split; [|split].
  - rewrite <- rev_app_distr, <- Heq. symmetry. apply rev_involutive.
  - now apply forallb_rev.
  - intros init c H. apply (f_equal (@rev codepoint)) in H.
    rewrite rev_involutive, rev_app_distr in H. simpl in H.
    exact (Hhd _ _ H).
Qed.

Lemma strip_spec (s : str) :
  exists left right : str,
    s = left ++ strip s ++ right
    /\ forallb is_space left = true /\ forallb is_space right = true
    /\ (forall c rest, strip s = c :: rest -> is_space c = false)
    /\ (forall init c, strip s = init ++ [c] -> is_space c = false).
Proof.
  unfold strip.
  destruct (lstrip_spec s) as (l & Hl & Hlws & Hhd).
  destruct (rstrip_spec (lstrip s)) as (r & Hr & Hrws & Hlast).
  exists l, r. repeat split; try assumption.
  - now rewrite <- Hr.
  - intros c rest H. rewrite H in Hr. simpl in Hr. exact (Hhd _ _ Hr).
Qed.

(** ** The status line *)

(** A key that is not in the table gets the default. *)
Lemma get_absent (d : PyDict.dict Z str) (k : Z) (default : str) :
  ~ In k (PyDict.keys d) -> PyDict.get Z.eqb d k default = default.
Proof.
  induction d as [|[k' v] d IH]; simpl; intros H; [reflexivity|].
  destruct (Z.eqb_spec k' k) as [->|Hne].
  - exfalso. apply H. now left.
  - apply IH. intros Hi. apply H. now right.
Qed.

(** C8.  [_get_status_text] is a total function of the status code: it gives
    the fixed phrase for each of the thirteen curated codes, and the empty
    string for every other integer, 422 and 429 among them. *)
Theorem C8_status_text_total (code : Z) :
  (_get_status_text 200 = lit "OK"
   /\ _get_status_text 201 = lit "Created"
   /\ _get_status_text 204 = lit "No Content"
   /\ _get_status_text 301 = lit "Moved Permanently"
   /\ _get_status_text 302 = lit "Found"
   /\ _get_status_text 400 = lit "Bad Request"
   /\ _get_status_text 401 = lit "Unauthorized"
   /\ _get_status_text 403 = lit "Forbidden"
   /\ _get_status_text 404 = lit "Not Found"
   /\ _get_status_text 405 = lit "Method Not Allowed"
   /\ _get_status_text 500 = lit "Internal Server Error"
   /\ _get_status_text 502 = lit "Bad Gateway"
   /\ _get_status_text 503 = lit "Service Unavailable")
  /\ (In code [200; 201; 204; 301; 302; 400; 401; 403; 404; 405; 500; 502; 503]%Z
      <-> _get_status_text code <> lit "")
  /\ _get_status_text 422 = lit ""
  /\ _get_status_text 429 = lit "".
Proof.
  split; [repeat split; reflexivity|].
  split; [|split; reflexivity].
  change [200; 201; 204; 301; 302; 400; 401; 403; 404; 405; 500; 502; 503]%Z
    with curated_codes.
  split.
  - intros Hin. unfold curated_codes in Hin. simpl in Hin.
    repeat (destruct Hin as [<-|Hin]; [vm_compute; discriminate|]).
    contradiction.
  - intros Hne. destruct (in_dec Z.eq_dec code curated_codes) as [Hin|Hout];
      [assumption|].
    exfalso. apply Hne. unfold _get_status_text. now apply get_absent.
Qed.

(** ** The request model *)

(** C9.  Constructing an [HttpRequest] with method [m] uppercases [m] first;
    the construction raises exactly when the uppercased value is none of GET,
    POST, PUT, DELETE, PATCH, HEAD, OPTIONS, and otherwise yields a request
    whose [method] field is the uppercased value. *)
Theorem C9_method_uppercased_then_validated (U : UnicodeCase)
    (m url0 : str) (h : headers_dict) (b : option str) (t : Z) :
  let allowed :=
    [lit "GET"; lit "POST"; lit "PUT"; lit "DELETE"; lit "PATCH"; lit "HEAD";
     lit "OPTIONS"] in
  let made := new_HttpRequest m url0 h b t in
  (raised made = true <-> ~ In (upper m) allowed)
  /\ (~ In (upper m) allowed ->
      made = ([], Raises (ValueError (invalid_method_prefix ++ upper m))))
  /\ (In (upper m) allowed ->
      made = ([], Returns (mkHttpRequest (upper m) url0 h b t))
      /\ forall r, snd made = Returns r -> method r = upper m).
Proof.
  intros allowed made.
  assert (Hmade : made = if negb (in_list (upper m) valid_methods)
                         then raise (ValueError (invalid_method_prefix ++ upper m))
                         else ret (mkHttpRequest (upper m) url0 h b t))
    by reflexivity.
  change allowed with valid_methods.
  destruct (in_list (upper m) valid_methods) eqn:E; simpl in Hmade.
  - apply in_list_In in E. rewrite Hmade. repeat split.
    + discriminate.
    + intros Hn. contradiction.
    + contradiction.
    + intros r Hr. simpl in Hr. now injection Hr as <-.
  - assert (Hout : ~ In (upper m) valid_methods).
    { intros Hi. apply in_list_In in Hi. congruence. }
    rewrite Hmade. repeat split; try contradiction; auto.
Qed.

(** ** The renderer *)

(** [format_response] prints the preamble, then what [_format_body] prints,
    then a blank line unless the body raised. *)
Lemma format_response_unfold (U : UnicodeCase) (J : JsonModule)
    (r : HttpResponse) (show : bool) :
  format_response r show =
  (preamble r show ++ printed (_format_body r)
     ++ (if raised (_format_body r) then [] else [RBlank]),
   snd (_format_body r)).
Proof.
  unfold format_response, preamble, header_block, printed, raised.
  destruct (_format_body r) as [out [[]|e]];
    destruct (show && PyDict.truthy (headers r)); simpl;
    rewrite ?app_nil_r; reflexivity.
Qed.

(** The dispatch of [_format_body], one case per branch. *)
Lemma format_body_json (J : JsonModule) (r : HttpResponse) :
  contains (lit "application/json") (content_type_of r) = true ->
  _format_body r = format_json r.
Proof. intros H. unfold _format_body. now rewrite H. Qed.

Lemma format_body_html (J : JsonModule) (r : HttpResponse) :
  contains (lit "application/json") (content_type_of r) = false ->
  contains (lit "text/html") (content_type_of r) = true ->
  _format_body r = format_html r.
Proof. intros H1 H2. unfold _format_body. now rewrite H1, H2. Qed.

Lemma format_body_xml (J : JsonModule) (r : HttpResponse) :
  contains (lit "application/json") (content_type_of r) = false ->
  contains (lit "text/html") (content_type_of r) = false ->
  contains (lit "application/xml") (content_type_of r)
  || contains (lit "text/xml") (content_type_of r) = true ->
  _format_body r = format_xml r.
Proof. intros H1 H2 H3. unfold _format_body. now rewrite H1, H2, H3. Qed.

Lemma format_body_text (J : JsonModule) (r : HttpResponse) :
  contains (lit "application/json") (content_type_of r) = false ->
  contains (lit "text/html") (content_type_of r) = false ->
  contains (lit "application/xml") (content_type_of r) = false ->
  contains (lit "text/xml") (content_type_of r) = false ->
  _format_body r = format_text r.
Proof. intros H1 H2 H3 H4. unfold _format_body. now rewrite H1, H2, H3, H4. Qed.

(** C3.  When the content type contains [application/json] and the body
    parses as JSON, the body block is the parsed value serialized again with
    [indent=2] and [ensure_ascii=False], shown as JSON; the raw body is not
    what is printed. *)
Theorem C3_valid_json_is_reindented (U : UnicodeCase) (J : JsonModule)
    (r : HttpResponse) (parsed : json_value) :
  contains (lit "application/json") (content_type_of r) = true ->
  json_loads (body r) = Loaded parsed ->
  _format_body r = ([RSyntax (json_dumps parsed 2 false) (lit "json")], Returns tt)
  /\ forall show,
       format_response r show
       = (preamble r show
            ++ [RSyntax (json_dumps parsed 2 false) (lit "json"); RBlank],
          Returns tt).
Proof.
  intros Hct Hl.
  assert (Hb : _format_body r
               = ([RSyntax (json_dumps parsed 2 false) (lit "json")], Returns tt)).
  { rewrite (format_body_json _ _ Hct). unfold format_json. now rewrite Hl. }
  split; [exact Hb|].
  intros show. rewrite format_response_unfold, Hb. reflexivity.
Qed.

(** The ten-line cut of the HTML branch, in terms of the number of lines. *)
Lemma firstn_ten_lines (parts : list str) :
  firstn 10 parts = firstn (Nat.min 10 (List.length parts)) parts
  /\ (10 <=? List.length (firstn 10 parts))%nat = (10 <=? List.length parts)%nat.
Proof.
  split.
  - destruct (Nat.le_ge_cases 10 (List.length parts)) as [H|H].
    + now rewrite Nat.min_l.
    + rewrite Nat.min_r by assumption.
      rewrite (firstn_all2 (n := 10)) by assumption.
      now rewrite firstn_all.
  - rewrite length_firstn.
    destruct (Nat.leb_spec 10 (List.length parts));
      destruct (Nat.leb_spec 10 (Nat.min 10 (List.length parts))); lia.
Qed.

(** C7.  In the HTML branch, with [n] the number of newline-separated lines
    of the body: the first [min 10 n] lines are shown, a line [...] follows
    them exactly when [n >= 10], and the footnote with the size of the whole
    body is printed in every case. *)
Theorem C7_html_first_ten_lines (J : JsonModule) (r : HttpResponse) :
  contains (lit "application/json") (content_type_of r) = false ->
  contains (lit "text/html") (content_type_of r) = true ->
  let lines := split newline (body r) in
  let n := List.length lines in
  let shown := join nl (firstn (Nat.min 10 n) lines) in
  join nl lines = body r
  /\ ((n < 10)%nat ->
      shown = body r
      /\ _format_body r
         = ([RSyntax shown (lit "html");
             RText (lit "[dim](HTML response truncated, "
                    ++ str_of_nat (len (body r)) ++ lit " bytes total)[/dim]")],
            Returns tt))
  /\ ((10 <= n)%nat ->
      _format_body r
      = ([RSyntax (shown ++ nl ++ lit "...") (lit "html");
          RText (lit "[dim](HTML response truncated, "
                 ++ str_of_nat (len (body r)) ++ lit " bytes total)[/dim]")],
         Returns tt)).
Proof.
  intros H1 H2 lines n shown.
  rewrite (format_body_html _ _ H1 H2). unfold format_html.
  fold lines. destruct (firstn_ten_lines lines) as [Hcut Hge].
  rewrite Hge. fold n in Hcut |- *. rewrite Hcut. fold shown.
  split; [apply join_split|].
  split; intros Hn.
  - destruct (Nat.leb_spec 10 n); [lia|].
    split; [|reflexivity].
    unfold shown. rewrite Nat.min_r by lia. unfold n. rewrite firstn_all.
    apply join_split.
  - destruct (Nat.leb_spec 10 n); [|lia]. reflexivity.
Qed.

(** ** Content-type dispatch *)

Lemma headers_get_absent (d : headers_dict) (k default : str) :
  ~ In k (PyDict.keys d) -> PyDict.get str_eqb d k default = default.
Proof.
  induction d as [|[k' v] d IH]; simpl; intros H; [reflexivity|].
  destruct (str_eqb k' k) eqn:E.
  - apply str_eqb_eq in E. exfalso. apply H. now left.
  - apply IH. intros Hi. apply H. now right.
Qed.

Lemma headers_get_present (d : headers_dict) (k v default : str) :
  NoDup (PyDict.keys d) -> In (k, v) d -> PyDict.get str_eqb d k default = v.
Proof.
  induction d as [|[k' v'] d IH]; simpl; intros Hnd Hin; [contradiction|].
  inversion Hnd as [|? ? Hout Hnd']; subst.
  destruct (str_eqb k' k) eqn:E.
  - apply str_eqb_eq in E. subst k'. destruct Hin as [Heq|Hin].
    + now injection Heq.
    + exfalso. apply Hout. change k with (fst (k, v)). now apply in_map.
  - apply str_eqb_neq in E. destruct Hin as [Heq|Hin].
    + injection Heq as -> _. contradiction.
    + now apply IH.
Qed.

(** [selects] names one branch for each content type, the one [_format_body]
    takes. *)
Lemma selects_unique (ct : str) (b b' : branch) :
  selects ct b -> selects ct b' -> b = b'.
Proof.
  intros H H'. destruct H; destruct H'; try reflexivity; tauto.
Qed.

Lemma format_body_selects (J : JsonModule) (r : HttpResponse) :
  exists b : branch, selects (content_type_of r) b /\ _format_body r = render b r.
Proof.
  unfold _format_body.
  destruct (contains (lit "application/json") (content_type_of r)) eqn:Hj.
  { exists Json. split; [|reflexivity]. constructor. now apply contains_occurs. }
  apply contains_absent in Hj.
  destruct (contains (lit "text/html") (content_type_of r)) eqn:Hh.
  { exists Html. split; [|reflexivity].
    apply selects_html; [assumption | now apply contains_occurs]. }
  apply contains_absent in Hh.
  destruct (contains (lit "application/xml") (content_type_of r)) eqn:Hx.
  { exists Xml. split; [|reflexivity].
    apply selects_xml; [assumption | assumption | left; now apply contains_occurs]. }
  apply contains_absent in Hx.
  destruct (contains (lit "text/xml") (content_type_of r)) eqn:Ht.
  { exists Xml. split; [|reflexivity].
    apply selects_xml; [assumption | assumption | right; now apply contains_occurs]. }
  apply contains_absent in Ht.
  exists PlainText. split; [|reflexivity]. now apply selects_text.
Qed.

(** C2, as the code has it.  The branch is chosen by substring tests on the
    value stored under the key [content-type] (the empty string when the key
    is missing), in the order JSON, HTML, XML, plain text, first match wins;
    the tests compare characters exactly, so [application/json] selects the
    JSON branch and [Application/JSON] selects the plain-text branch. *)
Theorem C2_dispatch_first_match_exact_case (J : JsonModule) (r : HttpResponse) :
  (~ In (lit "content-type") (PyDict.keys (headers r)) -> content_type_of r = lit "")
  /\ (forall v, NoDup (PyDict.keys (headers r)) ->
                In (lit "content-type", v) (headers r) -> content_type_of r = v)
  /\ (exists b : branch,
        selects (content_type_of r) b
        /\ (forall b', selects (content_type_of r) b' -> b' = b)
        /\ _format_body r = render b r)
  /\ selects (lit "application/json") Json
  /\ selects (lit "Application/JSON") PlainText.
Proof.
  split; [apply headers_get_absent|].
  split; [intros v Hnd Hin; now apply headers_get_present|].
  split.
  - destruct (format_body_selects J r) as (b & Hs & Hr).
    exists b. split; [assumption|]. split; [|assumption].
    intros b' Hs'. exact (selects_unique _ _ _ Hs' Hs).
  - split.
    + constructor. apply contains_occurs. reflexivity.
    + apply selects_text; apply contains_absent; reflexivity.
Qed.

(** C2, counterexample.  With the content type [Application/JSON] and a body
    that is a JSON document, a case-insensitive test would find
    [application/json], yet the body is printed by the plain-text branch and
    not by the JSON branch. *)
Lemma C2_mixed_case_json_renders_as_text :
  let r := sample_response (lit "Application/JSON") (qlit "{'a':1}") in
  contains (lit "application/json") (lower (content_type_of r)) = true
  /\ json_loads (body r) = Loaded (RefJson.JDict [(lit "a", RefJson.JInt 1)])
  /\ _format_body r = ([RText (qlit "{'a':1}")], Returns tt)
  /\ render Json r = ([RSyntax (qlit "{" ++ nl ++ qlit "  'a': 1" ++ nl ++ qlit "}")
                               (lit "json")], Returns tt)
  /\ _format_body r <> render Json r.
Proof.
  cbv zeta. repeat split; try (vm_compute; reflexivity).
  vm_compute. discriminate.
Qed.

(** ** The header block *)

(** The loop of [format_response] keeps the headers whose lowercased name is
    one of the six, in the order of the mapping. *)
Lemma add_rows_filter (U : UnicodeCase) (items acc : list (str * str)) :
  add_rows items acc
  = acc ++ filter (fun kv => in_list (lower (fst kv)) shown_headers) items.
Proof.
  unfold add_rows. revert acc.
  induction items as [|[k v] items IH]; intros acc; cbn [fold_left filter fst].
  - now rewrite app_nil_r.
  - rewrite IH. destruct (in_list (lower k) shown_headers).
    + now rewrite <- app_assoc.
    + reflexivity.
Qed.

(** The six names are their own lowercase. *)
Lemma shown_headers_lowercase (U : UnicodeCase) :
  lower_on_ascii U -> Forall (fun name => lower name = name) shown_headers.
Proof.
  intros H. unfold shown_headers.
  repeat constructor; rewrite H; reflexivity.
Qed.

Lemma on_allow_list_code (U : UnicodeCase) (key : str) :
  lower_on_ascii U -> on_allow_list key = in_list (lower key) shown_headers.
Proof.
  intros H. unfold on_allow_list, in_list, ci_eqb.
  pose proof (shown_headers_lowercase U H) as Hall.
  induction Hall as [|name names Hname _ IH]; simpl; [reflexivity|].
  now rewrite Hname, IH.
Qed.

(** The body is never printed as a table. *)
Lemma format_body_no_table (J : JsonModule) (r : HttpResponse) :
  table_rows (printed (_format_body r)) = [].
Proof.
  destruct (format_body_selects J r) as (b & _ & ->).
  destruct b; simpl.
  - unfold format_json. now destruct (json_loads (body r)).
  - reflexivity.
  - unfold format_xml. now destruct (500 <? len (body r))%nat.
  - unfold format_text. now destruct (1000 <? len (body r))%nat.
Qed.

Lemma table_rows_app (a b : list renderable) :
  table_rows (a ++ b) = table_rows a ++ table_rows b.
Proof. unfold table_rows. apply flat_map_app. Qed.

(** C5.  With [show_headers] true, the rows of the header table are the
    entries of the response headers whose name is, up to case, one of
    content-type, content-length, server, date, cache-control,
    x-ratelimit-remaining, in the order of the mapping; no other header is
    printed. *)
Theorem C5_header_block_is_allow_list (U : UnicodeCase) (J : JsonModule)
    (r : HttpResponse) :
  lower_on_ascii U ->
  let rows := table_rows (printed (format_response r true)) in
  rows = filter (fun kv => on_allow_list (fst kv)) (PyDict.items (headers r))
  /\ forall key value : str,
       In (key, value) rows <->
       In (key, value) (PyDict.items (headers r))
       /\ exists name : str,
            In name [lit "content-type"; lit "content-length"; lit "server";
                     lit "date"; lit "cache-control"; lit "x-ratelimit-remaining"]
            /\ lower key = lower name.
Proof.
  intros Hlow rows.
  assert (Hrows : rows
                  = filter (fun kv => on_allow_list (fst kv)) (PyDict.items (headers r))).
  { unfold rows. rewrite format_response_unfold. unfold printed at 1.
    cbn [fst]. unfold preamble.
    rewrite !table_rows_app, format_body_no_table.
    replace (table_rows (if raised (_format_body r) then [] else [RBlank]))
      with (@nil (str * str)) by now destruct (raised (_format_body r)).
    change (table_rows [RBlank; RPanel (summary r) (summary_title r)
                                       (_get_status_color (status_code r))])
      with (@nil (str * str)).
    change (table_rows [RText (nl ++ lit "[bold]Body:[/bold]")])
      with (@nil (str * str)).
    rewrite !app_nil_r, app_nil_l.
    unfold header_block, PyDict.items.
    destruct (headers r) as [|kv hs] eqn:Hh; [reflexivity|].
    change (table_rows (if true && PyDict.truthy (kv :: hs)
                        then [RText (nl ++ lit "[bold]Headers:[/bold]");
                              RTable (add_rows (kv :: hs) [])]
                        else []))
      with (add_rows (kv :: hs) [] ++ []).
    rewrite app_nil_r, add_rows_filter, app_nil_l.
    apply filter_ext. intros [k v]. cbn [fst]. symmetry.
    now apply on_allow_list_code. }
  split; [exact Hrows|].
  intros key value. rewrite Hrows, filter_In. simpl fst.
  unfold on_allow_list. rewrite existsb_exists.
  split; intros [Hin (name & Hname & Heq)]; (split; [assumption|]);
    exists name; (split; [assumption|]).
  - unfold ci_eqb in Heq. now apply str_eqb_eq in Heq.
  - unfold ci_eqb. now apply str_eqb_eq.
Qed.

(** ** The header parser *)

(** Assignment into a dict: which keys and which entries it leaves. *)
Lemma keys_set (d : headers_dict) (k v k' : str) :
  In k' (PyDict.keys (PyDict.set str_eqb d k v)) <-> k' = k \/ In k' (PyDict.keys d).
Proof.
  induction d as [|[k1 v1] d IH]; simpl.
  - intuition.
  - destruct (str_eqb k1 k) eqn:E; simpl.
    + apply str_eqb_eq in E. subst k1. intuition.
    + rewrite IH. intuition.
Qed.

Lemma set_NoDup (d : headers_dict) (k v : str) :
  NoDup (PyDict.keys d) -> NoDup (PyDict.keys (PyDict.set str_eqb d k v)).
Proof.
  induction d as [|[k1 v1] d IH]; simpl; intros Hnd.
  - constructor; [tauto | constructor].
  - inversion Hnd as [|? ? Hout Hnd']; subst.
    destruct (str_eqb k1 k) eqn:E; simpl.
    + now constructor.
    + apply str_eqb_neq in E. constructor; [|auto].
      intros Hi. apply keys_set in Hi as [->|Hi]; contradiction.
Qed.

Lemma In_set (d : headers_dict) (k v k' v' : str) :
  NoDup (PyDict.keys d) ->
  In (k', v') (PyDict.set str_eqb d k v) <->
  (k' = k /\ v' = v) \/ (k' <> k /\ In (k', v') d).
Proof.
  induction d as [|[k1 v1] d IH]; simpl; intros Hnd.
  - split.
    + intros [H|[]]. injection H as <- <-. now left.
    + intros [[-> ->]|[_ []]]. now left.
  - inversion Hnd as [|? ? Hout Hnd']; subst.
    destruct (str_eqb k1 k) eqn:E; simpl.
    + apply str_eqb_eq in E. subst k1. split.
      * intros [H|H]; [injection H as <- <-; now left|].
        right. split; [|now right].
        intros ->. apply Hout. change k with (fst (k, v')). now apply in_map.
      * intros [[-> ->]|[Hne [H|H]]]; [now left | | now right].
        injection H as <- _. contradiction.
    + apply str_eqb_neq in E. rewrite (IH Hnd'). split.
      * intros [H|[H|[Hne H]]]; [|now left|right; split; [assumption | now right]].
        injection H as <- <-. right. split; [assumption | now left].
      * intros [H|[Hne [H|H]]]; [right; now left | now left |].
        right. right. now split.
Qed.

Lemma last_binding_cons (p : str * str) (ps : list (str * str)) (k v : str) :
  last_binding (p :: ps) k v <->
  (p = (k, v) /\ ~ In k (map fst ps)) \/ last_binding ps k v.
Proof.
  unfold last_binding. split.
  - intros (earlier & later & Heq & Hout). destruct earlier as [|e earlier].
    + injection Heq as -> ->. now left.
    + injection Heq as -> ->. right. now exists earlier, later.
  - intros [[-> Hout]|(earlier & later & -> & Hout)].
    + now exists [], ps.
    + now exists (p :: earlier), later.
Qed.

(** After a sequence of assignments a key holds the value of its last
    assignment, or what it held before when it was never assigned. *)
Lemma assign_spec (pairs : list (str * str)) (d : headers_dict) :
  NoDup (PyDict.keys d) ->
  NoDup (PyDict.keys (assign d pairs))
  /\ forall k v,
       In (k, v) (assign d pairs) <->
       last_binding pairs k v \/ (~ In k (map fst pairs) /\ In (k, v) d).
Proof.
  revert d. induction pairs as [|[k0 v0] ps IH]; intros d Hnd.
  - split; [exact Hnd|]. intros k v. simpl. split.
    + intros H. right. tauto.
    + intros [(earlier & later & Heq & _)|[_ H]]; [|exact H].
      destruct earlier; discriminate.
  - change (assign d ((k0, v0) :: ps))
      with (assign (PyDict.set str_eqb d k0 v0) ps).
    destruct (IH _ (set_NoDup d k0 v0 Hnd)) as [Hnd' Hin].
    split; [exact Hnd'|].
    intros k v. rewrite Hin, last_binding_cons, (In_set d k0 v0 k v Hnd). simpl.
    split.
    + intros [H|[Hout [[-> ->]|[Hne H]]]].
      * left. now right.
      * left. left. now split.
      * right. split; [|assumption]. intros [E|Hi]; [now symmetry in E | contradiction].
    + intros [[[E Hout]|H]|[Hout H]].
      * injection E as -> ->. right. split; [assumption | now left].
      * now left.
      * right. split; [tauto|]. right. split; [|assumption].
        intros ->. apply Hout. now left.
Qed.

(** The loop, when every entry has a colon. *)
Lemma parse_loop_returns (hs : list str) :
  Forall (fun h => In colon h) hs ->
  forall parsed : headers_dict,
  exists pairs : list (str * str),
    Forall2 header_entry hs pairs
    /\ parse_loop hs parsed = ([], Returns (assign parsed pairs)).
Proof.
  induction 1 as [|h hs Hh _ IH]; intros parsed.
  - exists []. split; [constructor | reflexivity].
  - simpl. rewrite (proj2 (contains_char colon h) Hh). simpl.
    unfold split1. destruct (partition colon h) as [[before after]|] eqn:E.
    + apply partition_some in E as [Heq Hfirst].
      destruct (IH (PyDict.set str_eqb parsed (strip before) (strip after)))
        as (pairs & Hpairs & Hrun).
      exists ((strip before, strip after) :: pairs). split.
      * constructor; [|assumption]. now exists before, after.
      * exact Hrun.
    + apply partition_none in E. contradiction.
Qed.

(** The loop, when some entry has none: the run ends in [Abort]. *)
Lemma parse_loop_aborts (hs : list str) :
  Exists (fun h => ~ In colon h) hs ->
  forall parsed : headers_dict, snd (parse_loop hs parsed) = Raises Abort.
Proof.
  induction hs as [|h hs IH]; intros Hex parsed.
  - inversion Hex.
  - simpl. destruct (contains [colon] h) eqn:Hc; simpl; [|reflexivity].
    apply contains_char in Hc.
    inversion Hex as [? ? Hh|? ? Htl]; subst; [contradiction|].
    unfold split1. destruct (partition colon h) as [[before after]|] eqn:E.
    + now apply IH.
    + apply partition_none in E. contradiction.
Qed.

(** ** The size that is printed *)

(** Every size printed is [len(response.body)], a count of characters. *)
Lemma body_size_is_len (r : HttpResponse) : body_size r = List.length (body r).
Proof. reflexivity. Qed.

(** A character takes one to four UTF-8 bytes. *)
Lemma utf8_encode_char_length (c : codepoint) (b : list N) :
  utf8_encode_char c = Some b -> (1 <= List.length b <= 4)%nat.
Proof.
  unfold utf8_encode_char.
  destruct (c <? 128); [intros H; injection H as <-; simpl; lia|].
  destruct (c <? 2048); [intros H; injection H as <-; simpl; lia|].
  destruct ((55296 <=? c) && (c <=? 57343)); [discriminate|].
  destruct (c <? 65536); [intros H; injection H as <-; simpl; lia|].
  destruct (c <? 1114112); [intros H; injection H as <-; simpl; lia|].
  discriminate.
Qed.

(** A string has at most as many characters as UTF-8 bytes. *)
Lemma encode_length (s : str) (bytes : list N) :
  encode s = Some bytes -> (len s <= List.length bytes)%nat.
Proof.
  revert bytes. induction s as [|c s IH]; intros bytes; simpl.
  - intros H. injection H as <-. apply Nat.le_refl.
  - destruct (utf8_encode_char c) as [b|] eqn:Ec; [|discriminate].
    destruct (encode s) as [bs|]; [|discriminate].
    intros H. injection H as <-. rewrite length_app.
    specialize (IH bs eq_refl). unfold len in IH.
    pose proof (utf8_encode_char_length c b Ec). unfold len. simpl. lia.
Qed.

(** C1, at three bodies made of the character U+00E9 (two bytes, C3 A9, in
    UTF-8).  One character sent as [text/html]: the summary prints
    [Size: 1 bytes] and the footnote [1 bytes total], for 2 bytes.  501
    characters sent as [application/xml]: the footnote prints 501, for 1002
    bytes.  1001 characters sent as [text/plain]: the footnote prints 1001,
    for 2002 bytes. *)
Theorem C1_size_counts_characters_not_bytes :
  let html := sample_response (lit "text/html") [233] in
  let xml := sample_response (lit "application/xml") (repeat 233 501) in
  let text := sample_response (lit "text/plain") (repeat 233 1001) in
  (encode (body html) = Some [195; 169]
   /\ format_response html false
      = ([RBlank;
          RPanel (lit "[green]Status:[/green] 200 OK" ++ nl
                  ++ lit "[cyan]Time:[/cyan] 125ms" ++ nl
                  ++ lit "[cyan]Size:[/cyan] 1 bytes")
                 (lit "[bold]Response - GET https://api.example.com/items[/bold]")
                 (lit "green");
          RText (nl ++ lit "[bold]Body:[/bold]");
          RSyntax [233] (lit "html");
          RText (lit "[dim](HTML response truncated, 1 bytes total)[/dim]");
          RBlank],
         Returns tt))
  /\ (option_map (@List.length N) (encode (body xml)) = Some 1002%nat
      /\ _format_body xml
         = ([RSyntax (repeat 233 500) (lit "xml");
             RText (lit "[dim](XML truncated, 501 bytes total)[/dim]")],
            Returns tt))
  /\ (option_map (@List.length N) (encode (body text)) = Some 2002%nat
      /\ _format_body text
         = ([RText (repeat 233 1000);
             RText (lit "[dim]... (1001 bytes total)[/dim]")],
            Returns tt)).
Proof. cbv zeta. repeat split; vm_compute; reflexivity. Qed.

(** ** The properties at concrete responses *)

Lemma basic_latin_lower_on_ascii : lower_on_ascii BasicLatinCase.
Proof. intros s _. reflexivity. Qed.

(** C3 at the example of the specification: [{"error":"not found"}] is shown
    on three lines. *)
Lemma C3_witness :
  contains (lit "application/json") (content_type_of not_found_response) = true
  /\ json_loads (body not_found_response)
     = Loaded (RefJson.JDict [(lit "error", RefJson.JStr (lit "not found"))])
  /\ _format_body not_found_response
     = ([RSyntax (qlit "{" ++ nl ++ qlit "  'error': 'not found'" ++ nl ++ qlit "}")
                 (lit "json")],
        Returns tt).
Proof.
  split; [reflexivity|]. split; [reflexivity|].
  exact (proj1 (C3_valid_json_is_reindented BasicLatinCase ReferenceJson
                  not_found_response
                  (RefJson.JDict [(lit "error", RefJson.JStr (lit "not found"))])
                  eq_refl eq_refl)).
Defined.

(** C5 at a response with five headers, three of them on the allow-list. *)
Lemma C5_witness :
  let r :=
    mkHttpResponse 200
      [(lit "Content-Type", lit "text/plain"); (lit "X-Request-Id", lit "7");
       (lit "server", lit "nginx"); (lit "Set-Cookie", lit "a=b");
       (lit "DATE", lit "today")]
      (lit "ok") 0.125%float sample_request 0 in
  lower_on_ascii BasicLatinCase
  /\ table_rows (printed (format_response r true))
     = [(lit "Content-Type", lit "text/plain"); (lit "server", lit "nginx");
        (lit "DATE", lit "today")].
Proof.
  split; [exact basic_latin_lower_on_ascii|].
  exact (proj1 (C5_header_block_is_allow_list BasicLatinCase ReferenceJson
                  (mkHttpResponse 200
                     [(lit "Content-Type", lit "text/plain");
                      (lit "X-Request-Id", lit "7");
                      (lit "server", lit "nginx"); (lit "Set-Cookie", lit "a=b");
                      (lit "DATE", lit "today")]
                     (lit "ok") 0.125%float sample_request 0)
                  basic_latin_lower_on_ascii)).
Defined.

(** C7 at bodies of nine and of ten lines. *)
Lemma C7_witness :
  let nine := sample_response (lit "text/html; charset=utf-8") (lines_of_x 9) in
  let ten := sample_response (lit "text/html; charset=utf-8") (lines_of_x 10) in
  (contains (lit "application/json") (content_type_of nine) = false
   /\ contains (lit "text/html") (content_type_of nine) = true)
  /\ (List.length (split newline (body nine)) = 9%nat
      /\ _format_body nine
         = ([RSyntax (lines_of_x 9) (lit "html");
             RText (lit "[dim](HTML response truncated, 17 bytes total)[/dim]")],
            Returns tt))
  /\ (List.length (split newline (body ten)) = 10%nat
      /\ _format_body ten
         = ([RSyntax (lines_of_x 10 ++ nl ++ lit "...") (lit "html");
             RText (lit "[dim](HTML response truncated, 19 bytes total)[/dim]")],
            Returns tt)).
Proof.
  split; [split; reflexivity|]. split; (split; [reflexivity|]).
  - refine (proj2 (proj1 (proj2 (C7_html_first_ten_lines ReferenceJson
              (sample_response (lit "text/html; charset=utf-8") (lines_of_x 9))
              eq_refl eq_refl)) _)).
    apply Nat.ltb_lt. reflexivity.
  - refine (proj2 (proj2 (C7_html_first_ten_lines ReferenceJson
              (sample_response (lit "text/html; charset=utf-8") (lines_of_x 10))
              eq_refl eq_refl)) _).
    apply Nat.leb_le. reflexivity.
Defined.

(** ** Further properties of the renderer *)

(** X1.  In the XML branch the first 500 characters of the body are shown, and
    the footnote with the size of the whole body follows exactly when the
    body has more than 500 characters. *)
Theorem xml_first_500_characters (J : JsonModule) (r : HttpResponse) :
  contains (lit "application/json") (content_type_of r) = false ->
  contains (lit "text/html") (content_type_of r) = false ->
  contains (lit "application/xml") (content_type_of r)
  || contains (lit "text/xml") (content_type_of r) = true ->
  ((len (body r) <= 500)%nat ->
     _format_body r = ([RSyntax (body r) (lit "xml")], Returns tt))
  /\ ((501 <= len (body r))%nat ->
      exists shown rest : str,
        body r = shown ++ rest /\ len shown = 500%nat
        /\ _format_body r
           = ([RSyntax shown (lit "xml");
               RText (lit "[dim](XML truncated, " ++ str_of_nat (len (body r))
                      ++ lit " bytes total)[/dim]")],
              Returns tt)).
Proof.
  intros H1 H2 H3. rewrite (format_body_xml _ _ H1 H2 H3).
  unfold format_xml, slice_to. split; intros Hlen.
  - destruct (Nat.ltb_spec 500 (len (body r))); [lia|].
    unfold len in *. now rewrite firstn_all2.
  - destruct (Nat.ltb_spec 500 (len (body r))); [|lia].
    exists (firstn 500 (body r)), (skipn 500 (body r)).
    split; [symmetry; apply firstn_skipn|].
    split; [unfold len in *; rewrite length_firstn; lia|].
    reflexivity.
Qed.

(** X1 at a short and at a 501-character XML body. *)
Lemma xml_first_500_characters_witness :
  let short := sample_response (lit "text/xml") (lit "<a/>") in
  let long := sample_response (lit "application/xml") (repeat 120 501) in
  _format_body short = ([RSyntax (lit "<a/>") (lit "xml")], Returns tt)
  /\ exists shown rest : str,
       body long = shown ++ rest /\ len shown = 500%nat
       /\ _format_body long
          = ([RSyntax shown (lit "xml");
              RText (lit "[dim](XML truncated, 501 bytes total)[/dim]")],
             Returns tt).
Proof.
  split.
  - apply (xml_first_500_characters ReferenceJson
             (sample_response (lit "text/xml") (lit "<a/>")));
      try reflexivity.
    apply Nat.leb_le. reflexivity.
  - apply (xml_first_500_characters ReferenceJson
             (sample_response (lit "application/xml") (repeat 120 501)));
      reflexivity.
Defined.

(** The colour of the summary follows the class of the status code: green
    for 2xx, yellow for 3xx, orange1 for 4xx, red for 5xx, white for any
    other integer. *)
Lemma status_color_by_class (code : Z) :
  ((200 <= code < 300)%Z -> _get_status_color code = lit "green")
  /\ ((300 <= code < 400)%Z -> _get_status_color code = lit "yellow")
  /\ ((400 <= code < 500)%Z -> _get_status_color code = lit "orange1")
  /\ ((500 <= code < 600)%Z -> _get_status_color code = lit "red")
  /\ ((code < 200 \/ 600 <= code)%Z -> _get_status_color code = lit "white").
Proof.
  unfold _get_status_color.
  repeat split; intros H;
    case_bounds; simpl; try reflexivity; lia.
Qed.

(** The three classification helpers of [HttpResponse] hold on the ranges
    200-299, 400-499 and 500-599, and no two of them hold together. *)
Lemma response_classes (r : HttpResponse) :
  (is_success r = true <-> (200 <= status_code r < 300)%Z)
  /\ (is_client_error r = true <-> (400 <= status_code r < 500)%Z)
  /\ (is_server_error r = true <-> (500 <= status_code r < 600)%Z)
  /\ is_success r && is_client_error r = false
  /\ is_success r && is_server_error r = false
  /\ is_client_error r && is_server_error r = false.
Proof.
  unfold is_success, is_client_error, is_server_error.
  repeat split;
    case_bounds; simpl; try reflexivity; try discriminate; try lia;
    intros; try discriminate; try lia.
Qed.

(** ** The examples of the specification, run on the model *)

(** Status 404 on a DELETE, 0.123 s, body [{"error":"not found"}]. *)
Example spec_example_not_found :
  format_response not_found_response true
  = ([RBlank;
      RPanel (lit "[orange1]Status:[/orange1] 404 Not Found" ++ nl
              ++ lit "[cyan]Time:[/cyan] 123ms" ++ nl
              ++ lit "[cyan]Size:[/cyan] 21 bytes")
             (lit "[bold]Response - DELETE https://api.example.com/users/5[/bold]")
             (lit "orange1");
      RText (nl ++ lit "[bold]Headers:[/bold]");
      RTable [(lit "content-type", lit "application/json")];
      RText (nl ++ lit "[bold]Body:[/bold]");
      RSyntax (qlit "{" ++ nl ++ qlit "  'error': 'not found'" ++ nl ++ qlit "}")
              (lit "json");
      RBlank],
     Returns tt).
Proof. vm_compute. reflexivity. Qed.

(** Status 200, [text/plain], a body of 2000 characters [a]. *)
Example spec_example_plain_2000 :
  _format_body (sample_response (lit "text/plain") (repeat 97 2000))
  = ([RText (repeat 97 1000); RText (lit "[dim]... (2000 bytes total)[/dim]")],
     Returns tt).
Proof. vm_compute. reflexivity. Qed.

Example parse_headers_last_wins :
  _parse_headers [lit " Accept : text/html "; lit "X-Time: 12:30";
                  lit "Accept:application/json"]
  = ([], Returns [(lit "Accept", lit "application/json");
                  (lit "X-Time", lit "12:30")]).
Proof. vm_compute. reflexivity. Qed.

Example parse_headers_missing_colon :
  _parse_headers [lit "Accept: text/html"; lit "oops"; lit "X: 1"]
  = ([RText (lit "[bold red]" ++ [10007] ++ lit " Error:[/bold red] Header inv"
             ++ [225] ++ lit "lido: 'oops'. Formato esperado: 'Key: Value'")],
     Raises Abort).
Proof. vm_compute. reflexivity. Qed.

Example request_method_normalized :
  new_HttpRequest (lit "delete") (lit "http://h/") [] None 30
  = ([], Returns (mkHttpRequest (lit "DELETE") (lit "http://h/") [] None 30)).
Proof. vm_compute. reflexivity. Qed.

Example request_method_rejected :
  raised (new_HttpRequest (lit "fetch") (lit "http://h/") [] None 30) = true.
Proof. vm_compute. reflexivity. Qed.

Example format_0f_ties_to_even :
  format_0f 0.5 = lit "0" /\ format_0f 1.5 = lit "2" /\ format_0f 2.5 = lit "2"
  /\ format_0f (-0.25) = lit "-0" /\ format_0f 1234.75 = lit "1235".
Proof. repeat split; vm_compute; reflexivity. Qed.

(* ================================================================== *)
(** * Part III: further properties of the code *)
(* ================================================================== *)

(** ** The header parser, continued *)

(** Stripping a string that has no whitespace at its ends leaves it as it is. *)
Lemma lstrip_trimmed (s : str) :
  (forall c rest, s = c :: rest -> is_space c = false) -> lstrip s = s.
Proof.
  destruct s as [|c s]; intros H; simpl; [reflexivity|].
  now rewrite (H c s eq_refl).
Qed.

Lemma strip_trimmed (s : str) : trimmed s -> strip s = s.
Proof.
  intros [Hhd Hlast]. unfold strip, rstrip. rewrite (lstrip_trimmed s Hhd).
  rewrite lstrip_trimmed; [apply rev_involutive|].
  intros c rest H. apply (Hlast (rev rest) c).
  rewrite <- (rev_involutive s), H. reflexivity.
Qed.

Lemma strip_is_trimmed (s : str) : trimmed (strip s).
Proof.
  destruct (strip_spec s) as (l & r & _ & _ & _ & Hhd & Hlast). now split.
Qed.

(** Every key of the dict built by assignments is a key that was there or a
    key that was assigned, and the other way round. *)
Lemma keys_assign (pairs : list (str * str)) (d : headers_dict) (k : str) :
  In k (PyDict.keys (assign d pairs)) <-> In k (PyDict.keys d) \/ In k (map fst pairs).
Proof.
  revert d. induction pairs as [|[k0 v0] ps IH]; intros d.
  - simpl. tauto.
  - change (assign d ((k0, v0) :: ps)) with (assign (PyDict.set str_eqb d k0 v0) ps).
    rewrite IH, keys_set. simpl. intuition.
Qed.

(** The entries of a dict built by assignments come from the dict it started
    from or from the pairs assigned. *)
Lemma In_assign (pairs : list (str * str)) (d : headers_dict) (k v : str) :
  NoDup (PyDict.keys d) ->
  In (k, v) (assign d pairs) -> In (k, v) d \/ In (k, v) pairs.
Proof.
  intros Hnd Hin. apply (proj2 (assign_spec pairs d Hnd)) in Hin.
  destruct Hin as [(earlier & later & -> & _)|[_ H]]; [right|now left].
  apply in_or_app. right. now left.
Qed.

Lemma Forall2_In_left {A B : Type} {R : A -> B -> Prop} {l : list A} {l' : list B}
    {a : A} :
  Forall2 R l l' -> In a l -> exists b, In b l' /\ R a b.
Proof.
  induction 1 as [|x y l l' Hxy _ IH]; intros Hin; [contradiction|].
  destruct Hin as [->|Hin].
  - exists y. split; [now left | assumption].
  - destruct (IH Hin) as (b & Hb & Hr). exists b. split; [now right | assumption].
Qed.

Lemma Forall2_In_right {A B : Type} {R : A -> B -> Prop} {l : list A} {l' : list B}
    {b : B} :
  Forall2 R l l' -> In b l' -> exists a, In a l /\ R a b.
Proof.
  induction 1 as [|x y l l' Hxy _ IH]; intros Hin; [contradiction|].
  destruct Hin as [->|Hin].
  - exists x. split; [now left | assumption].
  - destruct (IH Hin) as (a & Ha & Hr). exists a. split; [now right | assumption].
Qed.

(** A run of the parser that returns met no entry without a colon. *)
Lemma parse_headers_returns_all_colons (hs : list str) (out : list renderable)
    (d : headers_dict) :
  _parse_headers hs = (out, Returns d) -> Forall (fun h => In colon h) hs.
Proof.
  intros Hrun.
  destruct (Forall_Exists_dec (fun h => In colon h)
              (fun h => in_dec N.eq_dec colon h) hs) as [Hall|Hex];
    [exact Hall|].
  pose proof (parse_loop_aborts hs Hex (PyDict.empty str str)) as Hab.
  unfold _parse_headers in Hrun. rewrite Hrun in Hab. discriminate.
Qed.

(** X3.  Whenever [_parse_headers] returns, it has printed nothing, the keys
    of the dict are distinct, and no key and no value has whitespace at
    either end (so stripping any of them again changes nothing). *)
Theorem parse_headers_result_trimmed (hs : list str) (out : list renderable)
    (d : headers_dict) :
  _parse_headers hs = (out, Returns d) ->
  out = []
  /\ NoDup (PyDict.keys d)
  /\ forall k v, In (k, v) d ->
       trimmed k /\ trimmed v /\ strip k = k /\ strip v = v.
Proof.
  intros Hrun.
  pose proof (parse_headers_returns_all_colons hs out d Hrun) as Hall.
  destruct (parse_loop_returns hs Hall (PyDict.empty str str)) as (pairs & Hp & Hrun').
  unfold _parse_headers in Hrun. rewrite Hrun' in Hrun.
  injection Hrun as <- <-.
  assert (Hnd : NoDup (PyDict.keys (PyDict.empty str str))) by constructor.
  split; [reflexivity|]. split; [apply (assign_spec pairs _ Hnd)|].
  intros k v Hin.
  apply (In_assign pairs _ k v Hnd) in Hin as [[]|Hin].
  destruct (Forall2_In_right Hp Hin) as (h & _ & before & after & _ & _ & Hkv).
  injection Hkv as -> ->.
  repeat split; try apply strip_is_trimmed; apply strip_trimmed, strip_is_trimmed.
Qed.

(** X3 at two entries with blanks around the names and the values. *)
Lemma parse_headers_result_trimmed_witness :
  let hs := [lit "  Accept :  text/html  "; lit "X-Time:12:30 "] in
  _parse_headers hs
  = ([], Returns [(lit "Accept", lit "text/html"); (lit "X-Time", lit "12:30")])
  /\ strip (lit "12:30") = lit "12:30".
Proof.
  split; [reflexivity|].
  exact (proj2 (proj2 (proj2 (proj2 (proj2
           (parse_headers_result_trimmed
              [lit "  Accept :  text/html  "; lit "X-Time:12:30 "] [] _
              eq_refl)) (lit "X-Time") (lit "12:30") (or_intror (or_introl eq_refl)))))).
Defined.

(** The loop stops at the first entry without a colon. *)
Lemma parse_loop_first_bad (hs : list str) (bad : str) (parsed : headers_dict) :
  first_bad_header hs = Some bad ->
  parse_loop hs parsed
  = ([RText (lit "[bold red]" ++ [10007] ++ lit " Error:[/bold red] "
             ++ invalid_header_message bad)],
     Raises Abort).
Proof.
  unfold first_bad_header. revert parsed.
  induction hs as [|h hs IH]; intros parsed; simpl; [discriminate|].
  destruct (contains [colon] h) eqn:Hc; simpl.
  - intros Hbad. apply contains_char in Hc.
    unfold split1. destruct (partition colon h) as [[before after]|] eqn:E.
    + now apply IH.
    + apply partition_none in E. contradiction.
  - intros Hbad. injection Hbad as ->. reflexivity.
Qed.

Lemma strip_all_space (ws : str) : forallb is_space ws = true -> strip ws = [].
Proof.
  intros H. unfold strip.
  assert (Hl : lstrip ws = []).
  { induction ws as [|c ws IH]; [reflexivity|]. simpl in H |- *.
    apply andb_true_iff in H as [Hc Hws]. rewrite Hc. now apply IH. }
  now rewrite Hl.
Qed.

Lemma first_bad_header_none (hs : list str) :
  first_bad_header hs = None <-> Forall (fun h => In colon h) hs.
Proof.
  unfold first_bad_header. induction hs as [|h hs IH]; simpl.
  - split; [constructor | reflexivity].
  - destruct (contains [colon] h) eqn:Hc; simpl.
    + apply contains_char in Hc. rewrite IH. split.
      * now constructor.
      * intros H. now inversion H.
    + split; [discriminate|]. intros H. inversion H as [|? ? Hh _]; subst.
      apply contains_char in Hh. congruence.
Qed.

(** X5.  A header name is not checked for being empty: when every entry has a
    colon and one of them has only whitespace before its first colon, the
    parser returns a dict that has the empty string among its keys. *)
Theorem parse_headers_accepts_blank_name (hs : list str) (ws rest : str) :
  first_bad_header hs = None ->
  In (ws ++ colon :: rest) hs ->
  forallb is_space ws = true ->
  exists d : headers_dict,
    _parse_headers hs = ([], Returns d) /\ In (lit "") (PyDict.keys d).
Proof.
  intros Hall Hin Hws. apply first_bad_header_none in Hall.
  destruct (parse_loop_returns hs Hall (PyDict.empty str str)) as (pairs & Hp & Hrun).
  exists (assign (PyDict.empty str str) pairs). split; [exact Hrun|].
  apply keys_assign. right.
  destruct (Forall2_In_left Hp Hin) as (kv & Hkv & before & after & Heq & Hfirst & ->).
  assert (Hnc : ~ In colon ws).
  { intros Hi. rewrite forallb_forall in Hws. specialize (Hws _ Hi). discriminate. }
  assert (E1 : partition colon (ws ++ colon :: rest) = Some (ws, rest))
    by now apply partition_some.
  assert (E2 : partition colon (ws ++ colon :: rest) = Some (before, after))
    by now apply partition_some.
  rewrite E1 in E2. injection E2 as <- <-.
  apply (in_map fst) in Hkv. cbn [fst] in Hkv.
  now rewrite (strip_all_space ws Hws) in Hkv.
Qed.

(** X5 at an entry that starts with two blanks and a colon. *)
Lemma parse_headers_accepts_blank_name_witness :
  exists d : headers_dict,
    _parse_headers [lit "Accept: a"; lit "  : orphan"] = ([], Returns d)
    /\ In (lit "") (PyDict.keys d).
Proof.
  apply (parse_headers_accepts_blank_name
           [lit "Accept: a"; lit "  : orphan"] (lit "  ") (lit " orphan")).
  - reflexivity.
  - right. left. reflexivity.
  - reflexivity.
Defined.

(** ** The renderer, continued *)

(** X6.  The content type is looked up under the key [content-type] spelled
    exactly so: a response without that key, whatever else it has (the same
    name in another letter case included), is rendered by the plain-text
    branch. *)
Theorem missing_content_type_key_is_plain_text (J : JsonModule) (r : HttpResponse) :
  in_list (lit "content-type") (PyDict.keys (headers r)) = false ->
  content_type_of r = lit "" /\ _format_body r = format_text r.
Proof.
  intros Hk.
  assert (Hct : content_type_of r = lit "").
  { apply headers_get_absent. intros Hi. apply in_list_In in Hi. congruence. }
  split; [exact Hct|].
  apply format_body_text; rewrite Hct; reflexivity.
Qed.

(** X6 at a JSON document served under the key [Content-Type]: the header
    table lists the header, and the body is printed as plain text. *)
Lemma missing_content_type_key_is_plain_text_witness :
  let r := mkHttpResponse 200 [(lit "Content-Type", lit "application/json")]
                          (qlit "{'a':1}") 0.125%float sample_request 0 in
  in_list (lit "content-type") (PyDict.keys (headers r)) = false
  /\ table_rows (printed (format_response r true))
     = [(lit "Content-Type", lit "application/json")]
  /\ _format_body r = ([RText (qlit "{'a':1}")], Returns tt).
Proof.
  split; [reflexivity|]. split; [reflexivity|].
  exact (proj2 (missing_content_type_key_is_plain_text ReferenceJson
                  (mkHttpResponse 200 [(lit "Content-Type", lit "application/json")]
                                  (qlit "{'a':1}") 0.125%float sample_request 0)
                  eq_refl)).
Defined.

Lemma tables_app (a b : list renderable) : tables (a ++ b) = tables a ++ tables b.
Proof. unfold tables. apply flat_map_app. Qed.

Lemma format_body_no_tables (J : JsonModule) (r : HttpResponse) :
  tables (printed (_format_body r)) = [].
Proof.
  destruct (format_body_selects J r) as (b & _ & ->).
  destruct b; simpl.
  - unfold format_json. now destruct (json_loads (body r)).
  - reflexivity.
  - unfold format_xml. now destruct (500 <? len (body r))%nat.
  - unfold format_text. now destruct (1000 <? len (body r))%nat.
Qed.

(** The tables that [format_response] prints. *)
Lemma format_response_tables (U : UnicodeCase) (J : JsonModule)
    (r : HttpResponse) (show : bool) :
  tables (printed (format_response r show))
  = if show && negb (Nat.eqb (List.length (headers r)) 0)
    then [filter (fun kv => in_list (lower (fst kv)) shown_headers)
                 (PyDict.items (headers r))]
    else [].
Proof.
  rewrite format_response_unfold. unfold printed at 1. cbn [fst]. unfold preamble.
  rewrite !tables_app, format_body_no_tables.
  replace (tables (if raised (_format_body r) then [] else [RBlank]))
    with (@nil (list (str * str))) by now destruct (raised (_format_body r)).
  change (tables [RBlank; RPanel (summary r) (summary_title r)
                                 (_get_status_color (status_code r))])
    with (@nil (list (str * str))).
  change (tables [RText (nl ++ lit "[bold]Body:[/bold]")])
    with (@nil (list (str * str))).
  rewrite !app_nil_r, app_nil_l. unfold header_block, PyDict.items.
  destruct show; [|reflexivity].
  destruct (headers r) as [|kv hs]; [reflexivity|].
  change (tables (if true && PyDict.truthy (kv :: hs)
                  then [RText (nl ++ lit "[bold]Headers:[/bold]");
                        RTable (add_rows (kv :: hs) [])]
                  else []))
    with [add_rows (kv :: hs) []].
  now rewrite add_rows_filter.
Qed.

(** X7.  [format_response] prints one table when [show_headers] is true and
    the response has at least one header, and no table otherwise.  The table
    holds the headers whose lowercased name is one of the six, in the order
    of the mapping; when no header of the response is one of them the table
    is printed all the same, with no row. *)
Theorem header_table_printed_iff (U : UnicodeCase) (J : JsonModule)
    (r : HttpResponse) (show : bool) :
  tables (printed (format_response r show))
  = if show && negb (Nat.eqb (List.length (headers r)) 0)
    then [filter (fun kv => in_list (lower (fst kv)) shown_headers)
                 (PyDict.items (headers r))]
    else [].
Proof. apply format_response_tables. Qed.

(** X8.  The colour of the summary agrees with the classification helpers
    of the response: green exactly when [is_success], orange1 exactly when
    [is_client_error], red exactly when [is_server_error]; a response in none
    of the three classes is yellow (300-399) or white. *)
Theorem color_matches_classification (r : HttpResponse) :
  (is_success r = true <-> _get_status_color (status_code r) = lit "green")
  /\ (is_client_error r = true <-> _get_status_color (status_code r) = lit "orange1")
  /\ (is_server_error r = true <-> _get_status_color (status_code r) = lit "red")
  /\ (is_success r || is_client_error r || is_server_error r = false <->
      _get_status_color (status_code r) = lit "yellow"
      \/ _get_status_color (status_code r) = lit "white").
Proof.
  unfold is_success, is_client_error, is_server_error, _get_status_color.
  case_bounds; cbn; try lia;
    (repeat split; intros; try reflexivity; try discriminate; try lia;
     try tauto;
     try match goal with
         | H : _ \/ _ |- _ => destruct H; discriminate
         end).
  all: try (left; reflexivity).
  all: try (right; reflexivity).
Qed.

(** A string of Basic Latin is its own UTF-8 form. *)
Lemma encode_ascii (s : str) : forallb is_ascii s = true -> encode s = Some s.
Proof.
  induction s as [|c s IH]; simpl; [reflexivity|].
  intros H. apply andb_true_iff in H as [Hc Hs].
  unfold utf8_encode_char. unfold is_ascii in Hc. rewrite Hc, (IH Hs). reflexivity.
Qed.

Lemma utf8_encode_char_one (c : codepoint) (b : list N) :
  utf8_encode_char c = Some b -> (List.length b = 1%nat <-> is_ascii c = true).
Proof.
  unfold utf8_encode_char, is_ascii.
  destruct (c <? 128); [intros H; injection H as <-; simpl; tauto|].
  destruct (c <? 2048);
    [intros H; injection H as <-; simpl; split; [lia | discriminate]|].
  destruct ((55296 <=? c) && (c <=? 57343)); [discriminate|].
  destruct (c <? 65536);
    [intros H; injection H as <-; simpl; split; [lia | discriminate]|].
  destruct (c <? 1114112);
    [intros H; injection H as <-; simpl; split; [lia | discriminate]|].
  discriminate.
Qed.

Lemma encode_length_eq (s : str) (bytes : list N) :
  encode s = Some bytes ->
  (len s = List.length bytes <-> forallb is_ascii s = true).
Proof.
  revert bytes. induction s as [|c s IH]; intros bytes; simpl.
  - intros H. injection H as <-. simpl. tauto.
  - destruct (utf8_encode_char c) as [b|] eqn:Ec; [|discriminate].
    destruct (encode s) as [bs|] eqn:Es; [|discriminate].
    intros H. injection H as <-. rewrite length_app, andb_true_iff.
    pose proof (utf8_encode_char_length c b Ec) as Hb.
    pose proof (utf8_encode_char_one c b Ec) as Hone.
    pose proof (encode_length s bs Es) as Hle. specialize (IH bs eq_refl).
    unfold len in *. simpl. rewrite <- IH, <- Hone. lia.
Qed.

(** X9.  Whenever the body can be encoded, the size that is printed is at
    most its number of UTF-8 bytes, and is that number exactly when every
    character of the body is Basic Latin. *)
Theorem printed_size_is_byte_size_iff_ascii (r : HttpResponse) (bytes : list N) :
  encode (body r) = Some bytes ->
  (body_size r <= List.length bytes)%nat
  /\ (body_size r = List.length bytes <-> forallb is_ascii (body r) = true).
Proof.
  intros H. split; [now apply encode_length | now apply encode_length_eq].
Qed.

(** X9 at [hello] (5 characters, 5 bytes) and at [café] (4 characters, 5 bytes). *)
Lemma printed_size_is_byte_size_iff_ascii_witness :
  let plain := sample_response (lit "text/plain") (lit "hello") in
  let accented := sample_response (lit "text/plain") (lit "caf" ++ [233]) in
  (encode (body plain) = Some (lit "hello") /\ body_size plain = 5%nat)
  /\ (encode (body accented) = Some (lit "caf" ++ [195; 169])
      /\ (body_size accented <= 5)%nat).
Proof.
  split; (split; [reflexivity|]).
  - apply (printed_size_is_byte_size_iff_ascii
             (sample_response (lit "text/plain") (lit "hello")) (lit "hello") eq_refl).
    reflexivity.
  - exact (proj1 (printed_size_is_byte_size_iff_ascii
                    (sample_response (lit "text/plain") (lit "caf" ++ [233]))
                    (lit "caf" ++ [195; 169]) eq_refl)).
Defined.

(** Joining the first parts gives a prefix of joining them all. *)
Lemma join_firstn_prefix (sep : str) (parts : list str) (k : nat) :
  exists rest : str, join sep parts = join sep (firstn k parts) ++ rest.
Proof.
  revert k. induction parts as [|p parts IH]; intros k.
  - exists []. now rewrite firstn_nil.
  - destruct k as [|k]; [now exists (join sep (p :: parts))|].
    destruct parts as [|q parts].
    { exists []. cbn [firstn]. rewrite firstn_nil. simpl. now rewrite app_nil_r. }
    destruct (IH k) as (rest & Hrest).
    destruct k as [|k].
    + exists (sep ++ join sep (q :: parts)). reflexivity.
    + exists rest. change (firstn (S (S k)) (p :: q :: parts))
        with (p :: q :: firstn k parts).
      change (firstn (S k) (q :: parts)) with (q :: firstn k parts) in Hrest.
      change (join sep (p :: q :: parts)) with (p ++ sep ++ join sep (q :: parts)).
      change (join sep (p :: q :: firstn k parts))
        with (p ++ sep ++ join sep (q :: firstn k parts)).
      now rewrite Hrest, <- !app_assoc.
Qed.

(** Parts that hold no separator are joined by one separator less than
    there are parts. *)
Lemma count_sep_join (sep : codepoint) (parts : list str) :
  Forall (fun part => ~ In sep part) parts ->
  count_occ N.eq_dec (join [sep] parts) sep = (List.length parts - 1)%nat.
Proof.
  induction 1 as [|p parts Hp Hparts IH]; [reflexivity|].
  destruct parts as [|q parts].
  - simpl. now apply count_occ_not_In.
  - change (join [sep] (p :: q :: parts)) with (p ++ sep :: join [sep] (q :: parts)).
    assert (Hp0 : count_occ N.eq_dec p sep = 0%nat) by now apply count_occ_not_In.
    rewrite count_occ_app. unfold codepoint in *. rewrite Hp0.
    rewrite count_occ_cons_eq by reflexivity. rewrite IH. simpl. lia.
Qed.

(** X10.  In the HTML branch the text shown before the optional [...] line is
    a prefix of the body and holds at most nine newlines, that is at most ten
    lines. *)
Theorem html_preview_is_prefix (J : JsonModule) (r : HttpResponse) :
  contains (lit "application/json") (content_type_of r) = false ->
  contains (lit "text/html") (content_type_of r) = true ->
  exists shown tail rest : str,
    _format_body r
    = ([RSyntax (shown ++ tail) (lit "html"); RText (html_footnote r)], Returns tt)
    /\ (tail = [] \/ tail = nl ++ lit "...")
    /\ body r = shown ++ rest
    /\ (count_occ N.eq_dec shown newline <= 9)%nat.
Proof.
  intros H1 H2. rewrite (format_body_html _ _ H1 H2). unfold format_html.
  set (lines := firstn 10 (split newline (body r))).
  exists (join nl lines),
         (if (10 <=? List.length lines)%nat then nl ++ lit "..." else []).
  destruct (join_firstn_prefix nl (split newline (body r)) 10) as (rest & Hrest).
  exists rest. split; [|split; [|split]].
  - destruct (10 <=? List.length lines)%nat; [reflexivity|].
    now rewrite app_nil_r.
  - destruct (10 <=? List.length lines)%nat; [now right | now left].
  - fold lines in Hrest. rewrite <- Hrest. symmetry. apply join_split.
  - assert (Hfree : Forall (fun part => ~ In newline part) lines).
    { pose proof (split_parts_free newline (body r)) as Hall.
      rewrite <- (firstn_skipn 10 (split newline (body r))) in Hall.
      apply Forall_app in Hall. exact (proj1 Hall). }
    unfold nl. rewrite (count_sep_join newline lines Hfree).
    assert (List.length lines <= 10)%nat by (unfold lines; apply firstn_le_length).
    lia.
Qed.

(** X10 at a body of twelve lines. *)
Lemma html_preview_is_prefix_witness :
  let r := sample_response (lit "text/html") (lines_of_x 12) in
  exists shown tail rest : str,
    _format_body r
    = ([RSyntax (shown ++ tail) (lit "html");
        RText (lit "[dim](HTML response truncated, 23 bytes total)[/dim]")],
       Returns tt)
    /\ (tail = [] \/ tail = nl ++ lit "...")
    /\ body r = shown ++ rest
    /\ (count_occ N.eq_dec shown newline <= 9)%nat.
Proof.
  exact (html_preview_is_prefix ReferenceJson
           (sample_response (lit "text/html") (lines_of_x 12)) eq_refl eq_refl).
Defined.

(** ** The request model, continued *)

Lemma valid_methods_upper (U : UnicodeCase) :
  upper_on_ascii U -> Forall (fun m => upper m = m) valid_methods.
Proof.
  intros H. unfold valid_methods. repeat constructor; rewrite H; reflexivity.
Qed.

(** The two ways a construction ends. *)
Lemma new_HttpRequest_cases (U : UnicodeCase) (m url0 : str) (h : headers_dict)
    (b : option str) (t : Z) :
  (In (upper m) valid_methods
   /\ new_HttpRequest m url0 h b t = ([], Returns (mkHttpRequest (upper m) url0 h b t)))
  \/ (~ In (upper m) valid_methods
      /\ new_HttpRequest m url0 h b t
         = ([], Raises (ValueError (invalid_method_prefix ++ upper m)))).
Proof.
  unfold new_HttpRequest, __post_init__. cbn [method url req_headers req_body timeout].
  destruct (in_list (upper m) valid_methods) eqn:E.
  - left. split; [now apply in_list_In | reflexivity].
  - right. split; [|reflexivity]. intros Hi. apply in_list_In in Hi. congruence.
Qed.

(** X11.  A request that was constructed keeps one of the seven methods, and
    constructing a request again from its own fields succeeds and gives the
    same request. *)
Theorem request_revalidates (U : UnicodeCase) (m url0 : str) (h : headers_dict)
    (b : option str) (t : Z) (r : HttpRequest) :
  upper_on_ascii U ->
  snd (new_HttpRequest m url0 h b t) = Returns r ->
  In (method r) valid_methods
  /\ new_HttpRequest (method r) (url r) (req_headers r) (req_body r) (timeout r)
     = ([], Returns r).
Proof.
  intros Hup Hr.
  destruct (new_HttpRequest_cases U m url0 h b t) as [[Hin Hnew]|[_ Hnew]];
    rewrite Hnew in Hr; [|discriminate].
  injection Hr as <-. cbn [method url req_headers req_body timeout].
  split; [exact Hin|].
  pose proof (valid_methods_upper U Hup) as Hall. rewrite Forall_forall in Hall.
  pose proof (Hall _ Hin) as Hfix.
  destruct (new_HttpRequest_cases U (upper m) url0 h b t) as [[_ Hnew']|[Hout _]].
  - now rewrite Hnew', Hfix.
  - rewrite Hfix in Hout. contradiction.
Qed.

Lemma basic_latin_upper_on_ascii : upper_on_ascii BasicLatinCase.
Proof. intros s _. reflexivity. Qed.

(** X11 at a request made with the method [Patch]. *)
Lemma request_revalidates_witness :
  let r := mkHttpRequest (lit "PATCH") (lit "http://h/") [] None 30 in
  upper_on_ascii BasicLatinCase
  /\ snd (new_HttpRequest (lit "Patch") (lit "http://h/") [] None 30) = Returns r
  /\ new_HttpRequest (lit "PATCH") (lit "http://h/") [] None 30 = ([], Returns r).
Proof.
  split; [exact basic_latin_upper_on_ascii|]. split; [reflexivity|].
  exact (proj2 (request_revalidates BasicLatinCase (lit "Patch") (lit "http://h/")
                  [] None 30 (mkHttpRequest (lit "PATCH") (lit "http://h/") [] None 30)
                  basic_latin_upper_on_ascii eq_refl)).
Defined.

(** ** The HTTP client *)

(** A request with a valid method and a body that can be encoded reaches the
    network once; how the run ends is read off the transport's answer. *)
Lemma HttpClient_request_sends (U : UnicodeCase) (w : World) (self : HttpClient)
    (m url0 : str) (h : option headers_dict) (b : option str) (t : option Z)
    (content : option (list N)) :
  In (upper m) valid_methods ->
  content_of b = Returns content ->
  let request0 := mkHttpRequest (upper m) url0 (headers_or_empty h) b
                                (timeout_or t (client_timeout self)) in
  let wire := mkWire (upper m) url0 (headers_or_empty h) content
                     (timeout_or t (client_timeout self)) in
  HttpClient_request w self m url0 h b t
  = ([Sent wire],
     match transport w wire with
     | Responded status response_headers text =>
         Done (mkHttpResponse status response_headers text
                              (time_end w - time_start w)%float request0
                              (datetime_now w))
     | TimeoutException _ =>
         Fails (HTTPError (timeout_message (time_end w - time_start w)%float))
     | ConnectError _ => Fails (HTTPError (connect_message url0))
     | OtherHTTPError message => Fails (HTTPError message)
     | TransportRaises e => Fails (Escapes e)
     end).
Proof.
  intros Hin Hc request0 wire. unfold HttpClient_request.
  destruct (new_HttpRequest_cases U m url0 (headers_or_empty h) b
              (timeout_or t (client_timeout self))) as [[_ Hnew]|[Hout _]];
    [|contradiction].
  rewrite Hnew. cbn [snd req_body method url req_headers timeout]. rewrite Hc.
  fold wire. now destruct (transport w wire).
Qed.

(** X12.  [HttpClient.request] fails before anything is sent in two cases:
    with [ValueError] when the uppercased method is none of the seven, and
    with [UnicodeEncodeError] when the method is valid and the body is a
    non-empty string that has no UTF-8 form.  Neither is an
    [httpx.HTTPError]. *)
Theorem request_fails_before_sending (U : UnicodeCase) (w : World)
    (self : HttpClient) (m url0 : str) (h : option headers_dict) (b : option str)
    (t : option Z) :
  (in_list (upper m) valid_methods = false ->
     HttpClient_request w self m url0 h b t
     = ([], Fails (Escapes (ValueError (invalid_method_prefix ++ upper m)))))
  /\ (in_list (upper m) valid_methods = true ->
      forall body0 : str,
        b = Some body0 -> body0 <> [] -> encode body0 = None ->
        HttpClient_request w self m url0 h b t
        = ([], Fails (Escapes (Uncaught (lit "UnicodeEncodeError"))))).
Proof.
  split.
  - intros Hm. unfold HttpClient_request.
    destruct (new_HttpRequest_cases U m url0 (headers_or_empty h) b
                (timeout_or t (client_timeout self))) as [[Hin _]|[_ Hnew]].
    + apply in_list_In in Hin. congruence.
    + now rewrite Hnew.
  - intros Hm body0 -> Hne Henc. unfold HttpClient_request.
    destruct (new_HttpRequest_cases U m url0 (headers_or_empty h) (Some body0)
                (timeout_or t (client_timeout self))) as [[_ Hnew]|[Hout _]].
    + rewrite Hnew. cbn [snd req_body]. unfold content_of.
      destruct body0 as [|c body0]; [contradiction|]. now rewrite Henc.
    + apply in_list_In in Hm. contradiction.
Qed.

(** X12 at the method [fetch], and at a body that is one lone surrogate. *)
Lemma request_fails_before_sending_witness :
  HttpClient_request json_server (mkHttpClient 30) (lit "fetch") (lit "http://h/")
                     None None None
  = ([], Fails (Escapes (ValueError (invalid_method_prefix ++ lit "FETCH"))))
  /\ HttpClient_request json_server (mkHttpClient 30) (lit "post") (lit "http://h/")
                        None (Some [55296]) None
     = ([], Fails (Escapes (Uncaught (lit "UnicodeEncodeError")))).
Proof.
  split.
  - exact (proj1 (request_fails_before_sending BasicLatinCase json_server
                    (mkHttpClient 30) (lit "fetch") (lit "http://h/") None None None)
                 eq_refl).
  - apply (proj2 (request_fails_before_sending BasicLatinCase json_server
                    (mkHttpClient 30) (lit "post") (lit "http://h/") None
                    (Some [55296]) None)
                 eq_refl [55296] eq_refl); [discriminate | reflexivity].
Defined.

(** X13.  When the method is valid and the body can be encoded, exactly one
    request is sent, and a failure of the transport is passed on as follows:
    a timeout becomes an [HTTPError] whose text gives the elapsed time with
    two decimals, a connection error becomes an [HTTPError] whose text names
    the URL, any other [HTTPError] keeps its text, and an exception that is
    no [HTTPError] escapes unchanged. *)
Theorem request_translates_transport_failures (U : UnicodeCase) (w : World)
    (self : HttpClient) (m url0 : str) (h : option headers_dict) (b : option str)
    (t : option Z) (content : option (list N)) :
  in_list (upper m) valid_methods = true ->
  content_of b = Returns content ->
  let wire := mkWire (upper m) url0 (headers_or_empty h) content
                     (timeout_or t (client_timeout self)) in
  let run0 := HttpClient_request w self m url0 h b t in
  fst run0 = [Sent wire]
  /\ (forall text, transport w wire = TimeoutException text ->
        snd run0
        = Fails (HTTPError (lit "Request timeout despu" ++ [233] ++ lit "s de "
                            ++ format_2f (time_end w - time_start w)%float
                            ++ lit "s")))
  /\ (forall text, transport w wire = ConnectError text ->
        snd run0 = Fails (HTTPError (lit "No se pudo conectar a " ++ url0)))
  /\ (forall text, transport w wire = OtherHTTPError text ->
        snd run0 = Fails (HTTPError text))
  /\ (forall e, transport w wire = TransportRaises e ->
        snd run0 = Fails (Escapes e)).
Proof.
  intros Hm Hc wire run0. apply in_list_In in Hm.
  unfold run0. rewrite (HttpClient_request_sends U w self m url0 h b t content Hm Hc).
  fold wire. cbn [fst snd].
  split; [reflexivity|].
  repeat split; intros x Hx; now rewrite Hx.
Qed.

(** X13 at a transport that times out after a quarter of a second. *)
Lemma request_translates_transport_failures_witness :
  let run0 := HttpClient_request (sample_world (TimeoutException (lit "timed out")))
                (mkHttpClient 30) (lit "get") (lit "http://h/") None None None in
  fst run0 = [Sent (mkWire (lit "GET") (lit "http://h/") [] None 30)]
  /\ snd run0
     = Fails (HTTPError (lit "Request timeout despu" ++ [233] ++ lit "s de 0.25s")).
Proof.
  split.
  - exact (proj1 (request_translates_transport_failures BasicLatinCase
                    (sample_world (TimeoutException (lit "timed out")))
                    (mkHttpClient 30) (lit "get") (lit "http://h/") None None None
                    None eq_refl eq_refl)).
  - exact (proj1 (proj2 (request_translates_transport_failures BasicLatinCase
                    (sample_world (TimeoutException (lit "timed out")))
                    (mkHttpClient 30) (lit "get") (lit "http://h/") None None None
                    None eq_refl eq_refl))
                 (lit "timed out") eq_refl).
Defined.

(** X14.  A response that [HttpClient.request] returns was produced by the
    one request that was sent: its [request] field has the uppercased method,
    one of the seven, and the URL, headers and timeout that went on the wire;
    the content sent is the UTF-8 form of that request's body, or nothing
    when the body is [None] or empty; [elapsed_time] is the difference of the
    two clock readings. *)
Theorem response_carries_its_request (U : UnicodeCase) (w : World)
    (self : HttpClient) (m url0 : str) (h : option headers_dict) (b : option str)
    (t : option Z) (events : list event) (r : HttpResponse) :
  HttpClient_request w self m url0 h b t = (events, Done r) ->
  exists wire : wire_request,
    events = [Sent wire]
    /\ transport w wire = Responded (status_code r) (headers r) (body r)
    /\ method (request r) = upper m /\ In (method (request r)) valid_methods
    /\ wire_method wire = method (request r)
    /\ wire_url wire = url (request r)
    /\ wire_headers wire = req_headers (request r)
    /\ wire_timeout wire = timeout (request r)
    /\ content_of (req_body (request r)) = Returns (wire_content wire)
    /\ elapsed_time r = (time_end w - time_start w)%float.
Proof.
  intros Hrun.
  destruct (new_HttpRequest_cases U m url0 (headers_or_empty h) b
              (timeout_or t (client_timeout self))) as [[Hin Hnew]|[_ Hnew]].
  - destruct (content_of b) as [content|e] eqn:Hc.
    + rewrite (HttpClient_request_sends U w self m url0 h b t content Hin Hc) in Hrun.
      cbv zeta in Hrun. injection Hrun as <- Hres.
      eexists. split; [reflexivity|].
      destruct (transport w _) as [status hs text| | | |] eqn:Ht; try discriminate.
      injection Hres as <-.
      repeat split; first [exact Ht | exact Hin | exact Hc | reflexivity].
    + unfold HttpClient_request in Hrun. rewrite Hnew in Hrun.
      cbn [snd req_body] in Hrun. rewrite Hc in Hrun. discriminate.
  - unfold HttpClient_request in Hrun. rewrite Hnew in Hrun. discriminate.
Qed.

(** X14 at a PUT of the body [é] with a timeout of 5. *)
Lemma response_carries_its_request_witness :
  exists wire : wire_request,
    [Sent (mkWire (lit "PUT") (lit "http://h/") [] (Some [195; 169]) 5)]
    = [Sent wire]
    /\ wire_method wire = lit "PUT"
    /\ content_of (Some [233]) = Returns (wire_content wire).
Proof.
  destruct (response_carries_its_request BasicLatinCase json_server
              (mkHttpClient 30) (lit "put") (lit "http://h/") None (Some [233])
              (Some 5%Z)
              [Sent (mkWire (lit "PUT") (lit "http://h/") [] (Some [195; 169]) 5)]
              (mkHttpResponse 200 [(lit "content-type", lit "application/json");
                                   (lit "x-request-id", lit "7")]
                              (qlit "{'ok':true}") 0.25%float
                              (mkHttpRequest (lit "PUT") (lit "http://h/") []
                                             (Some [233]) 5) 0)
              eq_refl)
    as (wire & Hev & _ & _ & _ & Hm & _ & _ & _ & Hc & _).
  exists wire. repeat split; assumption.
Defined.

(** X15.  Arguments that Python reads as false fall back to the defaults:
    an empty header dict is the same as no headers, a timeout of 0 is the same
    as no timeout, and both take the client's own timeout; an empty body puts
    the same request on the wire as no body. *)
Theorem request_falsy_arguments_fall_back (U : UnicodeCase) (w : World)
    (self : HttpClient) (m url0 : str) (h : option headers_dict) (b : option str)
    (t : option Z) :
  HttpClient_request w self m url0 (Some []) b t
  = HttpClient_request w self m url0 None b t
  /\ HttpClient_request w self m url0 h b (Some 0%Z)
     = HttpClient_request w self m url0 h b None
  /\ (forall wire, In wire (sent_of (fst (HttpClient_request w self m url0 h b None))) ->
        wire_timeout wire = client_timeout self)
  /\ sent_of (fst (HttpClient_request w self m url0 h (Some []) t))
     = sent_of (fst (HttpClient_request w self m url0 h None t))
  /\ (forall wire, In wire (sent_of (fst (HttpClient_request w self m url0 h None t))) ->
        wire_content wire = None).
Proof.
  split; [reflexivity|]. split; [reflexivity|].
  assert (Hsent : forall b' t',
             sent_of (fst (HttpClient_request w self m url0 h b' t')) = []
             \/ exists content,
                  content_of b' = Returns content
                  /\ sent_of (fst (HttpClient_request w self m url0 h b' t'))
                     = [mkWire (upper m) url0 (headers_or_empty h) content
                               (timeout_or t' (client_timeout self))]).
  { intros b' t'.
    destruct (new_HttpRequest_cases U m url0 (headers_or_empty h) b'
                (timeout_or t' (client_timeout self))) as [[Hin Hnew]|[_ Hnew]].
    - destruct (content_of b') as [content|e] eqn:Hc.
      + right. exists content. split; [reflexivity|].
        now rewrite (HttpClient_request_sends U w self m url0 h b' t' content Hin Hc).
      + left. unfold HttpClient_request. rewrite Hnew. cbn [snd req_body].
        now rewrite Hc.
    - left. unfold HttpClient_request. now rewrite Hnew. }
  split; [|split].
  - intros wire Hin. destruct (Hsent b None) as [E|(content & _ & E)];
      rewrite E in Hin; [contradiction|].
    destruct Hin as [<-|[]]. reflexivity.
  - destruct (Hsent (Some []) t) as [E|(c1 & Hc1 & E)];
      destruct (Hsent None t) as [E'|(c2 & Hc2 & E')]; rewrite E, E'.
    + reflexivity.
    + exfalso. destruct (new_HttpRequest_cases U m url0 (headers_or_empty h) (Some [])
                           (timeout_or t (client_timeout self))) as [[Hin _]|[Hout _]].
      * rewrite (HttpClient_request_sends U w self m url0 h (Some []) t None Hin eq_refl)
          in E. discriminate.
      * destruct (new_HttpRequest_cases U m url0 (headers_or_empty h) None
                    (timeout_or t (client_timeout self))) as [[Hin _]|[_ Hnew]];
          [contradiction|].
        unfold HttpClient_request in E'. rewrite Hnew in E'. discriminate.
    + exfalso. destruct (new_HttpRequest_cases U m url0 (headers_or_empty h) None
                           (timeout_or t (client_timeout self))) as [[Hin _]|[Hout _]].
      * rewrite (HttpClient_request_sends U w self m url0 h None t None Hin eq_refl)
          in E'. discriminate.
      * destruct (new_HttpRequest_cases U m url0 (headers_or_empty h) (Some [])
                    (timeout_or t (client_timeout self))) as [[Hin _]|[_ Hnew]];
          [contradiction|].
        unfold HttpClient_request in E. rewrite Hnew in E. discriminate.
    + simpl in Hc1, Hc2. injection Hc1 as <-. injection Hc2 as <-. reflexivity.
  - intros wire Hin. destruct (Hsent None t) as [E|(content & Hc & E)];
      rewrite E in Hin; [contradiction|].
    destruct Hin as [<-|[]]. simpl in Hc. now injection Hc as <-.
Qed.

(** The only way [content_of] raises. *)
Lemma content_of_raises (b : option str) (e : exn) :
  content_of b = Raises e ->
  exists body0 : str,
    b = Some body0 /\ body0 <> [] /\ encode body0 = None
    /\ e = Uncaught (lit "UnicodeEncodeError").
Proof.
  destruct b as [body0|]; [|discriminate]. intros H. exists body0.
  destruct body0 as [|c body0]; [discriminate|].
  unfold content_of in H. destruct (encode (c :: body0)); [discriminate|].
  injection H as <-. repeat split. discriminate.
Qed.

Lemma client_call_request (U : UnicodeCase) (v : verb) (w : World)
    (self : HttpClient) (url0 : str) (h : option headers_dict) (b : option str)
    (t : option Z) :
  client_call v w self url0 h b t
  = HttpClient_request w self (verb_name v) url0 h b t.
Proof. now destruct v. Qed.

Lemma verb_name_valid (U : UnicodeCase) (v : verb) :
  upper_on_ascii U ->
  upper (verb_name v) = verb_name v /\ In (verb_name v) valid_methods.
Proof.
  intros H. split.
  - destruct v; rewrite H; reflexivity.
  - destruct v; simpl; tauto.
Qed.

(** X16.  [get], [post], [put] and [delete] always pass the validation of
    the method: either one request goes out, with the method of the call, or
    the body cannot be encoded and nothing is sent. *)
Theorem convenience_methods_pass_validation (U : UnicodeCase) (v : verb)
    (w : World) (self : HttpClient) (url0 : str) (h : option headers_dict)
    (b : option str) (t : option Z) :
  upper_on_ascii U ->
  (exists (wire : wire_request) (res : result HttpResponse),
     client_call v w self url0 h b t = ([Sent wire], res)
     /\ wire_method wire = verb_name v /\ wire_url wire = url0)
  \/ (client_call v w self url0 h b t
      = ([], Fails (Escapes (Uncaught (lit "UnicodeEncodeError"))))
      /\ exists body0, b = Some body0 /\ encode body0 = None).
Proof.
  intros Hup. rewrite client_call_request.
  destruct (verb_name_valid U v Hup) as [Hfix Hin].
  assert (Hin' : In (upper (verb_name v)) valid_methods) by now rewrite Hfix.
  destruct (content_of b) as [content|e] eqn:Hc.
  - left.
    rewrite (HttpClient_request_sends U w self (verb_name v) url0 h b t content Hin' Hc).
    eexists. eexists. split; [reflexivity|]. split; [exact Hfix | reflexivity].
  - right. destruct (content_of_raises b e Hc) as (body0 & -> & _ & Henc & ->).
    split; [|now exists body0].
    unfold HttpClient_request.
    destruct (new_HttpRequest_cases U (verb_name v) url0 (headers_or_empty h)
                (Some body0) (timeout_or t (client_timeout self)))
      as [[_ Hnew]|[Hout _]]; [|contradiction].
    rewrite Hnew. cbn [snd req_body]. now rewrite Hc.
Qed.

(** X16 at [delete]. *)
Lemma convenience_methods_pass_validation_witness :
  upper_on_ascii BasicLatinCase
  /\ ((exists (wire : wire_request) (res : result HttpResponse),
         client_call DELETE json_server (mkHttpClient 30) (lit "http://h/")
                     None None None
         = ([Sent wire], res)
         /\ wire_method wire = lit "DELETE" /\ wire_url wire = lit "http://h/")
      \/ (client_call DELETE json_server (mkHttpClient 30) (lit "http://h/")
                      None None None
          = ([], Fails (Escapes (Uncaught (lit "UnicodeEncodeError"))))
          /\ exists body0, @None str = Some body0 /\ encode body0 = None)).
Proof.
  split; [exact basic_latin_upper_on_ascii|].
  exact (convenience_methods_pass_validation BasicLatinCase DELETE json_server
           (mkHttpClient 30) (lit "http://h/") None None None
           basic_latin_upper_on_ascii).
Defined.

(** ** The commands *)

Lemma command_unfold (U : UnicodeCase) (J : JsonModule) (v : verb) (w : World)
    (url0 : str) (header : list str) (data : option str) (timeout0 : Z)
    (no_headers : bool) :
  run_command v w url0 header data timeout0 no_headers
  = io_bind (lift (_parse_headers header)) (fun headers0 =>
      after_call (HttpClient_request w (mkHttpClient timeout0) (verb_name v) url0
                    (Some headers0) (verb_body v data) None) no_headers).
Proof. now destruct v. Qed.

Lemma io_bind_returns {A B : Type} (a : A) (f : A -> io B) :
  io_bind (lift ([], Returns a)) f = f a.
Proof. unfold io_bind, lift. simpl. now destruct (f a). Qed.

Lemma headers_or_empty_some (d : headers_dict) : headers_or_empty (Some d) = d.
Proof. now destruct d. Qed.

Lemma sent_of_app (a b : list event) : sent_of (a ++ b) = sent_of a ++ sent_of b.
Proof. unfold sent_of. apply flat_map_app. Qed.

Lemma printed_of_app (a b : list event) :
  printed_of (a ++ b) = printed_of a ++ printed_of b.
Proof. unfold printed_of. apply flat_map_app. Qed.

Lemma sent_of_printed (out : list renderable) : sent_of (map Printed out) = [].
Proof. induction out; simpl; auto. Qed.

Lemma printed_of_printed (out : list renderable) : printed_of (map Printed out) = out.
Proof. induction out as [|r out IH]; simpl; [reflexivity | now rewrite IH]. Qed.

(** A command whose headers parse and whose request passes the client's
    checks: the events are the request, then what the handler of the answer
    prints. *)
Lemma command_after_parse (U : UnicodeCase) (J : JsonModule) (v : verb) (w : World)
    (url0 : str) (header : list str) (data : option str) (timeout0 : Z)
    (no_headers : bool) (headers0 : headers_dict) (content : option (list N)) :
  upper_on_ascii U ->
  _parse_headers header = ([], Returns headers0) ->
  content_of (verb_body v data) = Returns content ->
  let wire := mkWire (verb_name v) url0 headers0 content timeout0 in
  let request0 := mkHttpRequest (verb_name v) url0 headers0 (verb_body v data)
                                timeout0 in
  run_command v w url0 header data timeout0 no_headers
  = after_call
      ([Sent wire],
       match transport w wire with
       | Responded status response_headers text =>
           Done (mkHttpResponse status response_headers text
                                (time_end w - time_start w)%float request0
                                (datetime_now w))
       | TimeoutException _ =>
           Fails (HTTPError (timeout_message (time_end w - time_start w)%float))
       | ConnectError _ => Fails (HTTPError (connect_message url0))
       | OtherHTTPError message => Fails (HTTPError message)
       | TransportRaises e => Fails (Escapes e)
       end)
      no_headers.
Proof.
  intros Hup Hparse Hc wire request0.
  rewrite command_unfold, Hparse, io_bind_returns.
  destruct (verb_name_valid U v Hup) as [Hfix Hin].
  assert (Hin' : In (upper (verb_name v)) valid_methods) by now rewrite Hfix.
  rewrite (HttpClient_request_sends U w (mkHttpClient timeout0) (verb_name v) url0
             (Some headers0) (verb_body v data) None content Hin' Hc).
  cbv zeta. rewrite Hfix, headers_or_empty_some. reflexivity.
Qed.

(** What [after_call] adds to the events of the call are prints only, and it
    never ends in an [HTTPError]. *)
Lemma after_call_shape (U : UnicodeCase) (J : JsonModule) (call : io HttpResponse)
    (no_headers : bool) :
  exists out : list renderable,
    fst (after_call call no_headers) = fst call ++ map Printed out
    /\ (snd (after_call call no_headers) = Done tt
        \/ exists e, snd (after_call call no_headers) = Fails (Escapes e))
    /\ (no_headers = true -> tables out = []).
Proof.
  destruct call as [events [response|[message|e]]]; unfold after_call.
  - unfold lift.
    destruct (print_info (completed_message response) ;;
              format_response response (negb no_headers)) as [out res] eqn:E.
    exists out. cbn [fst snd]. split; [reflexivity|]. split.
    + destruct res as [[]|e]; [now left | right; now exists e].
    + intros ->. unfold bind, print_info, console_print in E.
      destruct (format_response response (negb true)) as [out' res'] eqn:E'.
      injection E as <- _.
      pose proof (format_response_tables U J response (negb true)) as Ht.
      rewrite E' in Ht. unfold printed in Ht. cbn [fst negb andb] in Ht.
      exact Ht.
  - exists [error_line message]. cbn. split; [reflexivity|].
    split; [right; now exists Abort | reflexivity].
  - exists []. cbn. rewrite app_nil_r. split; [reflexivity|].
    split; [right; now exists e | reflexivity].
Qed.

(** The events of [HttpClient.request]: none, or the one request. *)
Lemma request_events (U : UnicodeCase) (w : World) (self : HttpClient)
    (m url0 : str) (h : option headers_dict) (b : option str) (t : option Z) :
  fst (HttpClient_request w self m url0 h b t) = []
  \/ exists content,
       content_of b = Returns content
       /\ fst (HttpClient_request w self m url0 h b t)
          = [Sent (mkWire (upper m) url0 (headers_or_empty h) content
                          (timeout_or t (client_timeout self)))].
Proof.
  destruct (new_HttpRequest_cases U m url0 (headers_or_empty h) b
              (timeout_or t (client_timeout self))) as [[Hin Hnew]|[_ Hnew]].
  - destruct (content_of b) as [content|e] eqn:Hc.
    + right. exists content. split; [reflexivity|].
      now rewrite (HttpClient_request_sends U w self m url0 h b t content Hin Hc).
    + left. unfold HttpClient_request. rewrite Hnew. cbn [snd req_body].
      now rewrite Hc.
  - left. unfold HttpClient_request. now rewrite Hnew.
Qed.

(** The two ways the parser ends. *)
Lemma parse_headers_cases (hs : list str) :
  (exists bad, first_bad_header hs = Some bad
               /\ _parse_headers hs
                  = ([error_line (invalid_header_message bad)], Raises Abort))
  \/ (exists d, first_bad_header hs = None /\ _parse_headers hs = ([], Returns d)).
Proof.
  destruct (first_bad_header hs) as [bad|] eqn:E.
  - left. exists bad. split; [reflexivity|].
    unfold _parse_headers. now rewrite (parse_loop_first_bad hs bad _ E).
  - right. apply first_bad_header_none in E.
    destruct (parse_loop_returns hs E (PyDict.empty str str)) as (pairs & _ & Hrun).
    eexists. split; [reflexivity | exact Hrun].
Qed.

(** X20.  No command lets an [httpx.HTTPError] out: whatever the headers, the
    network and the response are, a command either returns or ends in an
    exception of another kind ([click.Abort] after a reported error, or an
    exception the code does not handle). *)
Theorem command_never_fails_with_http_error (U : UnicodeCase) (J : JsonModule)
    (v : verb) (w : World) (url0 : str) (header : list str) (data : option str)
    (timeout0 : Z) (no_headers : bool) :
  snd (run_command v w url0 header data timeout0 no_headers) = Done tt
  \/ exists e : exn,
       snd (run_command v w url0 header data timeout0 no_headers)
       = Fails (Escapes e).
Proof.
  rewrite command_unfold.
  destruct (parse_headers_cases header) as [(bad & _ & ->)|(d & _ & ->)].
  - right. now exists Abort.
  - rewrite io_bind_returns.
    destruct (after_call_shape U J
                (HttpClient_request w (mkHttpClient timeout0) (verb_name v) url0
                   (Some d) (verb_body v data) None) no_headers)
      as (out & _ & H & _).
    exact H.
Qed.

(** X21.  With [--no-headers] no command prints a table, in any run. *)
Theorem no_headers_flag_prints_no_table (U : UnicodeCase) (J : JsonModule)
    (v : verb) (w : World) (url0 : str) (header : list str) (data : option str)
    (timeout0 : Z) :
  tables (printed_of (fst (run_command v w url0 header data timeout0 true))) = [].
Proof.
  rewrite command_unfold.
  destruct (parse_headers_cases header) as [(bad & _ & ->)|(d & _ & ->)].
  - reflexivity.
  - rewrite io_bind_returns.
    destruct (after_call_shape U J
                (HttpClient_request w (mkHttpClient timeout0) (verb_name v) url0
                   (Some d) (verb_body v data) None) true)
      as (out & -> & _ & Hout).
    rewrite printed_of_app, printed_of_printed, tables_app, (Hout eq_refl), app_nil_r.
    destruct (request_events U w (mkHttpClient timeout0) (verb_name v) url0
                (Some d) (verb_body v data) None) as [->|(content & _ & ->)];
      reflexivity.
Qed.

(** X22.  A command sends at most one request.  When it sends one, the
    headers parsed and the body was encoded, and the request has the URL of
    the command line, the parsed headers, the UTF-8 form of [--data] (nothing
    for [get] and [delete], and for an empty [--data]) and the timeout of the
    command line as it was given, 0 included. *)
Theorem command_sends_at_most_one_request (U : UnicodeCase) (J : JsonModule)
    (v : verb) (w : World) (url0 : str) (header : list str) (data : option str)
    (timeout0 : Z) (no_headers : bool) :
  let sent := sent_of (fst (run_command v w url0 header data timeout0 no_headers)) in
  sent = []
  \/ exists (headers0 : headers_dict) (content : option (list N)),
       _parse_headers header = ([], Returns headers0)
       /\ content_of (verb_body v data) = Returns content
       /\ sent = [mkWire (upper (verb_name v)) url0 headers0 content timeout0].
Proof.
  intros sent. unfold sent. rewrite command_unfold.
  destruct (parse_headers_cases header) as [(bad & _ & Hp)|(d & _ & Hp)]; rewrite Hp.
  - now left.
  - rewrite io_bind_returns.
    destruct (after_call_shape U J
                (HttpClient_request w (mkHttpClient timeout0) (verb_name v) url0
                   (Some d) (verb_body v data) None) no_headers)
      as (out & -> & _ & _).
    rewrite sent_of_app, sent_of_printed, app_nil_r.
    destruct (request_events U w (mkHttpClient timeout0) (verb_name v) url0
                (Some d) (verb_body v data) None) as [->|(content & Hc & ->)].
    + now left.
    + right. exists d, content. rewrite headers_or_empty_some.
      repeat split; assumption || reflexivity.
Qed.

(* ================================================================== *)
(** * Part IV: the runs on a Rich console *)
(* ================================================================== *)

(** ** What the console lets through *)

Lemma accepted_clean (R : RichConsole) (out : list renderable) :
  existsb renderable_raises out = false -> accepted out = (out, false).
Proof.
  induction out as [|r out IH]; simpl; [reflexivity|].
  intros H. apply orb_false_iff in H as [Hr Hout].
  now rewrite Hr, (IH Hout).
Qed.

Lemma accepted_refused (R : RichConsole) (out : list renderable) :
  existsb renderable_raises out = true -> snd (accepted out) = true.
Proof.
  induction out as [|r out IH]; simpl; [discriminate|].
  destruct (renderable_raises r); simpl; [reflexivity|].
  intros H. specialize (IH H). now destruct (accepted out).
Qed.

(** A run none of whose calls is refused is the same on the console. *)
Lemma on_console_clean (R : RichConsole) {A : Type} (m : run A) :
  existsb renderable_raises (printed m) = false -> on_console m = m.
Proof.
  intros H. unfold on_console. unfold printed in H.
  now rewrite (accepted_clean R _ H).
Qed.

(** A run one of whose calls is refused ends in [MarkupError]. *)
Lemma on_console_refused (R : RichConsole) {A : Type} (m : run A) :
  existsb renderable_raises (printed m) = true ->
  snd (on_console m) = Raises MarkupError.
Proof.
  intros H. unfold on_console. unfold printed in H.
  pose proof (accepted_refused R _ H) as Hf.
  destruct (accepted (fst m)) as [before failed]. simpl in Hf. now subst failed.
Qed.

(** A run that raises also raises on the console. *)
Lemma on_console_raised (R : RichConsole) {A : Type} (m : run A) :
  raised m = true -> raised (on_console m) = true.
Proof.
  intros H. unfold on_console.
  destruct (accepted (fst m)) as [before [|]]; [reflexivity | exact H].
Qed.

Lemma on_console_silent (R : RichConsole) {A : Type} (res : outcome A) :
  on_console ([], res) = ([], res).
Proof. reflexivity. Qed.

(** One call, then the rest of the run. *)
Lemma on_console_cons (R : RichConsole) {A : Type} (r : renderable)
    (out : list renderable) (res : outcome A) :
  on_console (r :: out, res)
  = if renderable_raises r then ([], Raises MarkupError)
    else (r :: fst (on_console (out, res)), snd (on_console (out, res))).
Proof.
  unfold on_console. cbn [fst accepted].
  destruct (renderable_raises r); [reflexivity|].
  now destruct (accepted out) as [before [|]].
Qed.

(** A run that prints one string. *)
Lemma on_console_text (R : RichConsole) {A : Type} (s : str) (res : outcome A) :
  on_console ([RText s], res)
  = if markup_raises s then ([], Raises MarkupError) else ([RText s], res).
Proof. rewrite on_console_cons. reflexivity. Qed.

(** On the console a run raises when it raises by itself or when one of its
    calls is refused, and only then. *)
Lemma on_console_raises_iff (R : RichConsole) {A : Type} (m : run A) :
  raised (on_console m) = raised m || existsb renderable_raises (printed m).
Proof.
  destruct (existsb renderable_raises (printed m)) eqn:E.
  - unfold raised at 1. rewrite (on_console_refused R m E). now rewrite orb_true_r.
  - rewrite (on_console_clean R m E). now rewrite orb_false_r.
Qed.

(** ** The body block on the console *)

(** The calls of the fallback of the JSON branch and of the plain-text
    branch. *)
Lemma format_json_fallback_calls (J : JsonModule) (r : HttpResponse) :
  contains (lit "application/json") (content_type_of r) = true ->
  json_loads (body r) = JSONDecodeError ->
  _format_body r = ([RText (body r)], Returns tt).
Proof.
  intros Hct Hl. rewrite (format_body_json _ _ Hct). unfold format_json.
  now rewrite Hl.
Qed.

Lemma format_json_loads_raises (J : JsonModule) (r : HttpResponse) (e : exn) :
  contains (lit "application/json") (content_type_of r) = true ->
  json_loads (body r) = LoadsRaises e ->
  _format_body r = ([], Raises e).
Proof.
  intros Hct Hl. rewrite (format_body_json _ _ Hct). unfold format_json.
  now rewrite Hl.
Qed.

Lemma format_text_calls (J : JsonModule) (r : HttpResponse) :
  contains (lit "application/json") (content_type_of r) = false ->
  contains (lit "text/html") (content_type_of r) = false ->
  contains (lit "application/xml") (content_type_of r) = false ->
  contains (lit "text/xml") (content_type_of r) = false ->
  _format_body r
  = if (1000 <? len (body r))%nat
    then ([RText (slice_to 1000 (body r));
           RText (lit "[dim]... (" ++ str_of_nat (len (body r))
                  ++ lit " bytes total)[/dim]")],
          Returns tt)
    else ([RText (body r)], Returns tt).
Proof.
  intros H1 H2 H3 H4. rewrite (format_body_text _ _ H1 H2 H3 H4).
  unfold format_text. now destruct (1000 <? len (body r))%nat.
Qed.

(** [format_response] raises on the console as soon as its body block does. *)
Lemma format_response_raises_with_body (U : UnicodeCase) (J : JsonModule)
    (R : RichConsole) (r : HttpResponse) (show : bool) :
  raised (on_console (_format_body r)) = true ->
  raised (on_console (format_response r show)) = true.
Proof.
  rewrite !on_console_raises_iff, format_response_unfold.
  unfold printed, raised. cbn [fst snd].
  rewrite !existsb_app.
  destruct (snd (_format_body r)); [|reflexivity].
  cbn [orb]. intros ->. now rewrite !orb_true_r.
Qed.

(** C4.  When the content type contains [application/json] and the body is
    not a JSON document, the decode error is caught and the body is given to
    [console.print] as it is; Rich reads it as markup.  When Rich refuses the
    body, as it does a body [[/x]], the body block raises [MarkupError] with
    nothing printed, and so does [format_response]; when Rich accepts it, the
    call returns.  When [json.loads] ends in an exception other than
    [JSONDecodeError], nothing catches it: the body block raises it with
    nothing printed, and [format_response] raises. *)
Theorem C4_json_fallback_reads_body_as_markup (U : UnicodeCase) (J : JsonModule)
    (R : RichConsole) (r : HttpResponse) :
  contains (lit "application/json") (content_type_of r) = true ->
  (json_loads (body r) = JSONDecodeError ->
     (markup_raises (body r) = true ->
        on_console (_format_body r) = ([], Raises MarkupError)
        /\ forall show, raised (on_console (format_response r show)) = true)
     /\ (markup_raises (body r) = false ->
         on_console (_format_body r) = ([RText (body r)], Returns tt)))
  /\ (forall e : exn, json_loads (body r) = LoadsRaises e ->
        on_console (_format_body r) = ([], Raises e)
        /\ forall show, raised (on_console (format_response r show)) = true).
Proof.
  intros Hct. split.
  - intros Hl. pose proof (format_json_fallback_calls J r Hct Hl) as Hb. split.
    + intros Hm.
      assert (Hrun : on_console (_format_body r) = ([], Raises MarkupError))
        by now rewrite Hb, on_console_text, Hm.
      split; [exact Hrun|]. intros show.
      apply format_response_raises_with_body. now rewrite Hrun.
    + intros Hm. now rewrite Hb, on_console_text, Hm.
  - intros e Hl. pose proof (format_json_loads_raises J r e Hct Hl) as Hb.
    assert (Hrun : on_console (_format_body r) = ([], Raises e))
      by now rewrite Hb.
    split; [exact Hrun|]. intros show.
    apply format_response_raises_with_body. now rewrite Hrun.
Qed.

(** C4 at the body [[/x]], served as [application/json]. *)
Lemma C4_witness :
  let r := sample_response (lit "application/json") (lit "[/x]") in
  json_loads (body r) = JSONDecodeError
  /\ @on_console ReferenceRich unit (_format_body r) = ([], Raises MarkupError)
  /\ forall show,
       raised (@on_console ReferenceRich unit (format_response r show)) = true.
Proof.
  split; [reflexivity|].
  exact (proj1 (proj1 (C4_json_fallback_reads_body_as_markup BasicLatinCase
                         ReferenceJson ReferenceRich
                         (sample_response (lit "application/json") (lit "[/x]"))
                         eq_refl) eq_refl) eq_refl).
Defined.

(** C6.  In the plain-text branch the text shown, the body or its first 1000
    characters, is given to [console.print] as it is; Rich reads it as
    markup.  When Rich refuses it, as it does a body [a [/dim] b], the body
    block raises [MarkupError] with nothing printed; when Rich accepts it,
    the call returns, and past 1000 characters the footnote with the size of
    the whole body follows. *)
Theorem C6_plain_text_is_read_as_markup (J : JsonModule) (R : RichConsole)
    (r : HttpResponse) :
  contains (lit "application/json") (content_type_of r) = false ->
  contains (lit "text/html") (content_type_of r) = false ->
  contains (lit "application/xml") (content_type_of r) = false ->
  contains (lit "text/xml") (content_type_of r) = false ->
  ((len (body r) <= 1000)%nat ->
     (markup_raises (body r) = true ->
        on_console (_format_body r) = ([], Raises MarkupError))
     /\ (markup_raises (body r) = false ->
         on_console (_format_body r) = ([RText (body r)], Returns tt)))
  /\ ((1001 <= len (body r))%nat ->
      exists shown rest : str,
        body r = shown ++ rest /\ len shown = 1000%nat
        /\ (markup_raises shown = true ->
              on_console (_format_body r) = ([], Raises MarkupError))
        /\ (markup_raises shown = false ->
            let footnote := lit "[dim]... (" ++ str_of_nat (len (body r))
                            ++ lit " bytes total)[/dim]" in
            markup_raises footnote = false ->
            on_console (_format_body r)
            = ([RText shown; RText footnote], Returns tt))).
Proof.
  intros H1 H2 H3 H4. rewrite (format_text_calls J r H1 H2 H3 H4).
  split; intros Hlen.
  - destruct (Nat.ltb_spec 1000 (len (body r))); [lia|].
    split; intros Hm; now rewrite on_console_text, Hm.
  - destruct (Nat.ltb_spec 1000 (len (body r))); [|lia].
    exists (firstn 1000 (body r)), (skipn 1000 (body r)).
    split; [symmetry; apply firstn_skipn|].
    split; [unfold len in *; rewrite length_firstn; lia|].
    unfold slice_to. split.
    + intros Hm. rewrite on_console_cons. cbn [renderable_raises]. now rewrite Hm.
    + intros Hm. cbv zeta. intros Hf. rewrite on_console_cons.
      cbn [renderable_raises]. now rewrite Hm, on_console_text, Hf.
Qed.

(** C6 at the body [a [/dim] b], served as [text/plain]. *)
Lemma C6_witness :
  let r := sample_response (lit "text/plain") (lit "a [/dim] b") in
  (len (body r) <= 1000)%nat
  /\ @on_console ReferenceRich unit (_format_body r) = ([], Raises MarkupError).
Proof.
  assert (Hlen : (len (lit "a [/dim] b") <= 1000)%nat)
    by (apply Nat.leb_le; reflexivity).
  split; [exact Hlen|].
  exact (proj1 (proj1 (C6_plain_text_is_read_as_markup ReferenceJson ReferenceRich
                         (sample_response (lit "text/plain") (lit "a [/dim] b"))
                         eq_refl eq_refl eq_refl eq_refl) Hlen) eq_refl).
Defined.

(** ** The header parser on the console *)

Lemma stripped_of_strip (s : str) : stripped_of s (strip s).
Proof.
  destruct (strip_spec s) as (l & r & Heq & Hl & Hr & Hhd & Hlast).
  exists l, r. repeat split; assumption.
Qed.

Lemma lstrip_spaces (ws s : str) :
  forallb is_space ws = true -> lstrip (ws ++ s) = lstrip s.
Proof.
  induction ws as [|c ws IH]; simpl; [reflexivity|].
  intros H. apply andb_true_iff in H as [Hc Hws]. rewrite Hc. now apply IH.
Qed.

(** The text without the whitespace at its ends is what [strip] returns, and
    nothing else. *)
Lemma stripped_of_unique (s core : str) : stripped_of s core -> core = strip s.
Proof.
  intros (l & r & -> & Hl & Hr & Hhd & Hlast).
  unfold strip. rewrite (lstrip_spaces l _ Hl).
  destruct core as [|c core].
  - simpl. unfold rstrip.
    assert (E : lstrip r = []) by (rewrite <- (app_nil_r r); rewrite lstrip_spaces; auto).
    now rewrite E.
  - assert (E : lstrip ((c :: core) ++ r) = (c :: core) ++ r).
    { simpl. now rewrite (Hhd c core eq_refl). }
    rewrite E. unfold rstrip. rewrite rev_app_distr.
    rewrite lstrip_spaces by now apply forallb_rev.
    rewrite lstrip_trimmed; [now rewrite rev_involutive|].
    intros c' rest H. apply (Hlast (rev rest) c').
    rewrite <- (rev_involutive (c :: core)), H. reflexivity.
Qed.

Lemma header_entry_reads_as (h : str) (kv : str * str) :
  header_entry h kv -> reads_as h kv.
Proof.
  intros (before & after & Heq & Hfirst & ->).
  exists before, after. repeat split; try assumption; apply stripped_of_strip.
Qed.


(** The two ways the parser ends on the console. *)
Lemma parse_headers_on_console (R : RichConsole) (hs : list str) :
  (exists bad,
     first_bad_header hs = Some bad
     /\ on_console (_parse_headers hs)
        = if markup_raises (lit "[bold red]" ++ [10007] ++ lit " Error:[/bold red] "
                            ++ invalid_header_message bad)
          then ([], Raises MarkupError)
          else ([error_line (invalid_header_message bad)], Raises Abort))
  \/ (exists d,
        first_bad_header hs = None
        /\ _parse_headers hs = ([], Returns d)
        /\ on_console (_parse_headers hs) = ([], Returns d)).
Proof.
  destruct (parse_headers_cases hs) as [(bad & Hbad & Hrun)|(d & Hnone & Hrun)].
  - left. exists bad. split; [exact Hbad|].
    rewrite Hrun. unfold error_line. apply on_console_text.
  - right. exists d. split; [exact Hnone|]. split; [exact Hrun|]. now rewrite Hrun.
Qed.



(** X4.  When some entry has no colon, [_parse_headers] stops at the first
    such entry and gives one error line, which quotes the entry, to
    [console.print]; the entries after it are not looked at.  When Rich
    accepts the line, it is printed and the parser raises [click.Abort]; when
    Rich refuses it, as it does for the entry [[/oops]], nothing is printed
    and the parser ends in [MarkupError]. *)
Theorem parse_headers_reports_first_bad (R : RichConsole) (hs : list str)
    (bad : str) :
  first_bad_header hs = Some bad ->
  let line := lit "[bold red]" ++ [10007] ++ lit " Error:[/bold red] Header inv"
              ++ [225] ++ lit "lido: '" ++ bad
              ++ lit "'. Formato esperado: 'Key: Value'" in
  (exists before after : list str,
     hs = before ++ bad :: after /\ ~ In colon bad
     /\ forall h, In h before -> In colon h)
  /\ (markup_raises line = false ->
      on_console (_parse_headers hs) = ([RText line], Raises Abort))
  /\ (markup_raises line = true ->
      on_console (_parse_headers hs) = ([], Raises MarkupError)).
Proof.
  intros Hbad line. split.
  - unfold first_bad_header in Hbad. clear -Hbad.
    induction hs as [|h hs IH]; simpl in Hbad; [discriminate|].
    destruct (contains [colon] h) eqn:Hc; simpl in Hbad.
    + destruct (IH Hbad) as (before & after & -> & Hn & Hall).
      exists (h :: before), after. repeat split; [assumption|].
      intros x [<-|Hx]; [now apply contains_char | now apply Hall].
    + injection Hbad as ->. exists [], hs. repeat split.
      * intros Hi. apply contains_char in Hi. congruence.
      * intros x [].
  - destruct (parse_headers_on_console R hs)
      as [(bad' & Hbad' & Hrun)|(d & Hnone & _)]; [|congruence].
    rewrite Hbad in Hbad'. injection Hbad' as <-.
    change (lit "[bold red]" ++ [10007] ++ lit " Error:[/bold red] "
            ++ invalid_header_message bad) with line in Hrun.
    rewrite Hrun. split; intros ->; reflexivity.
Qed.

(** X4 at an entry that Rich accepts and at one that it refuses. *)
Lemma parse_headers_reports_first_bad_witness :
  @on_console ReferenceRich headers_dict
    (_parse_headers [lit "Accept: text/html"; lit "oops"; lit "X: 1"; lit "worse"])
  = ([RText (lit "[bold red]" ++ [10007] ++ lit " Error:[/bold red] Header inv"
             ++ [225] ++ lit "lido: 'oops'. Formato esperado: 'Key: Value'")],
     Raises Abort)
  /\ @on_console ReferenceRich headers_dict
       (_parse_headers [lit "Accept: text/html"; lit "[/oops]"])
     = ([], Raises MarkupError).
Proof.
  split.
  - exact (proj1 (proj2 (parse_headers_reports_first_bad ReferenceRich
                           [lit "Accept: text/html"; lit "oops"; lit "X: 1";
                            lit "worse"]
                           (lit "oops") eq_refl)) eq_refl).
  - exact (proj2 (proj2 (parse_headers_reports_first_bad ReferenceRich
                           [lit "Accept: text/html"; lit "[/oops]"]
                           (lit "[/oops]") eq_refl)) eq_refl).
Defined.

(** The pair an entry reads as is the one the code computes. *)
Lemma reads_as_header_entry (h : str) (kv : str * str) :
  reads_as h kv <-> header_entry h kv.
Proof.
  split; [|apply header_entry_reads_as].
  intros (before & after & Heq & Hfirst & Hk & Hv).
  exists before, after. repeat split; try assumption.
  destruct kv as [k v]. cbn [fst snd] in *.
  now rewrite (stripped_of_unique _ _ Hk), (stripped_of_unique _ _ Hv).
Qed.

(** ** The commands on the console *)

Lemma command_on_console_unfold (U : UnicodeCase) (J : JsonModule)
    (R : RichConsole) (v : verb) (w : World) (url0 : str) (header : list str)
    (data : option str) (timeout0 : Z) (no_headers : bool) :
  run_command_on_console v w url0 header data timeout0 no_headers
  = io_bind (lift (on_console (_parse_headers header))) (fun headers0 =>
      after_call_on_console
        (HttpClient_request w (mkHttpClient timeout0) (verb_name v) url0
           (Some headers0) (verb_body v data) None) no_headers).
Proof. now destruct v. Qed.

(** A command whose headers parse and whose request passes the client's
    checks: the events are the request, then what the block of the status
    spinner does with the answer. *)
Lemma command_on_console_after_parse (U : UnicodeCase) (J : JsonModule)
    (R : RichConsole) (v : verb) (w : World) (url0 : str) (header : list str)
    (data : option str) (timeout0 : Z) (no_headers : bool)
    (headers0 : headers_dict) (content : option (list N)) :
  upper_on_ascii U ->
  _parse_headers header = ([], Returns headers0) ->
  content_of (verb_body v data) = Returns content ->
  let wire := mkWire (verb_name v) url0 headers0 content timeout0 in
  let request0 := mkHttpRequest (verb_name v) url0 headers0 (verb_body v data)
                                timeout0 in
  run_command_on_console v w url0 header data timeout0 no_headers
  = after_call_on_console
      ([Sent wire],
       match transport w wire with
       | Responded status response_headers text =>
           Done (mkHttpResponse status response_headers text
                                (time_end w - time_start w)%float request0
                                (datetime_now w))
       | TimeoutException _ =>
           Fails (HTTPError (timeout_message (time_end w - time_start w)%float))
       | ConnectError _ => Fails (HTTPError (connect_message url0))
       | OtherHTTPError message => Fails (HTTPError message)
       | TransportRaises e => Fails (Escapes e)
       end)
      no_headers.
Proof.
  intros Hup Hparse Hc wire request0.
  rewrite command_on_console_unfold, Hparse, on_console_silent, io_bind_returns.
  destruct (verb_name_valid U v Hup) as [Hfix Hin].
  assert (Hin' : In (upper (verb_name v)) valid_methods) by now rewrite Hfix.
  rewrite (HttpClient_request_sends U w (mkHttpClient timeout0) (verb_name v) url0
             (Some headers0) (verb_body v data) None content Hin' Hc).
  cbv zeta. rewrite Hfix, headers_or_empty_some. reflexivity.
Qed.

(** The handler of [httpx.HTTPError] on the console. *)
Lemma after_http_error_on_console (U : UnicodeCase) (J : JsonModule)
    (R : RichConsole) (events : list event) (message : str) (no_headers : bool) :
  let line := lit "[bold red]" ++ [10007] ++ lit " Error:[/bold red] " ++ message in
  after_call_on_console (events, Fails (HTTPError message)) no_headers
  = (events ++ (if markup_raises line then [] else [Printed (RText line)]),
     Fails (Escapes (if status_exit_raises then IndexError
                     else if markup_raises line then MarkupError else Abort))).
Proof.
  intros line. unfold after_call_on_console, leave_status.
  change (print_error message ;; raise Abort)%run
    with (([RText line], Raises Abort) : run unit).
  rewrite on_console_text.
  destruct (markup_raises line), status_exit_raises; reflexivity.
Qed.

(** X17.  A malformed [--header] stops every command before the network is
    touched and before the status spinner starts: no request is sent, and the
    command ends as the parser does.  When Rich accepts the error line that
    quotes the first entry without a colon, that line is the only event and
    the command ends in [click.Abort]; when Rich refuses it, there is no
    event and the command ends in [MarkupError]. *)
Theorem command_bad_header_sends_nothing (U : UnicodeCase) (J : JsonModule)
    (R : RichConsole) (v : verb) (w : World) (url0 : str) (header : list str)
    (data : option str) (timeout0 : Z) (no_headers : bool) (bad : str) :
  first_bad_header header = Some bad ->
  let line := lit "[bold red]" ++ [10007] ++ lit " Error:[/bold red] Header inv"
              ++ [225] ++ lit "lido: '" ++ bad
              ++ lit "'. Formato esperado: 'Key: Value'" in
  let run0 := run_command_on_console v w url0 header data timeout0 no_headers in
  sent_of (fst run0) = []
  /\ (markup_raises line = false ->
      run0 = ([Printed (RText line)], Fails (Escapes Abort)))
  /\ (markup_raises line = true -> run0 = ([], Fails (Escapes MarkupError))).
Proof.
  intros Hbad line run0. unfold run0. rewrite command_on_console_unfold.
  destruct (parse_headers_on_console R header)
    as [(bad' & Hbad' & Hrun)|(d & Hnone & _)]; [|congruence].
  rewrite Hbad in Hbad'. injection Hbad' as <-.
  change (lit "[bold red]" ++ [10007] ++ lit " Error:[/bold red] "
          ++ invalid_header_message bad) with line in Hrun.
  rewrite Hrun.
  destruct (markup_raises line); repeat split; try reflexivity; discriminate.
Qed.

(** X17 at [post] with a second header that has no colon, and with one that
    Rich refuses. *)
Lemma command_bad_header_sends_nothing_witness :
  @run_command_on_console BasicLatinCase ReferenceJson ReferenceRich POST
    json_server (lit "http://h/") [lit "Accept: a"; lit "Authorization Bearer x"]
    (Some (lit "{}")) 30 false
  = ([Printed (RText (lit "[bold red]" ++ [10007]
                      ++ lit " Error:[/bold red] Header inv" ++ [225]
                      ++ lit "lido: 'Authorization Bearer x'. "
                      ++ lit "Formato esperado: 'Key: Value'"))],
     Fails (Escapes Abort))
  /\ @run_command_on_console BasicLatinCase ReferenceJson ReferenceRich GET
       json_server (lit "http://h/") [lit "[/oops]"] None 30 false
     = ([], Fails (Escapes MarkupError)).
Proof.
  split.
  - exact (proj1 (proj2 (command_bad_header_sends_nothing BasicLatinCase
                           ReferenceJson ReferenceRich POST json_server
                           (lit "http://h/")
                           [lit "Accept: a"; lit "Authorization Bearer x"]
                           (Some (lit "{}")) 30 false
                           (lit "Authorization Bearer x") eq_refl)) eq_refl).
  - exact (proj2 (proj2 (command_bad_header_sends_nothing BasicLatinCase
                           ReferenceJson ReferenceRich GET json_server
                           (lit "http://h/") [lit "[/oops]"] None 30 false
                           (lit "[/oops]") eq_refl)) eq_refl).
Defined.

(** X18.  When the transport fails with an [HTTPError], the command gives
    one error line to [console.print] after the request; neither the info
    line nor any part of a response is printed.  The line reads
    [Request timeout después de <seconds>s] for a timeout,
    [No se pudo conectar a <url>] for a connection error, and the text of the
    exception for any other [HTTPError].  The line is printed unless Rich
    refuses it.  The command ends in [IndexError] where leaving the status
    spinner raises; elsewhere it ends in [MarkupError] when Rich refuses the
    line and in [click.Abort] when Rich accepts it. *)
Theorem command_http_failure_aborts (U : UnicodeCase) (J : JsonModule)
    (R : RichConsole) (v : verb) (w : World) (url0 : str) (header : list str)
    (data : option str) (timeout0 : Z) (no_headers : bool)
    (headers0 : headers_dict) (content : option (list N)) :
  upper_on_ascii U ->
  _parse_headers header = ([], Returns headers0) ->
  content_of (verb_body v data) = Returns content ->
  let wire := mkWire (verb_name v) url0 headers0 content timeout0 in
  let run0 := run_command_on_console v w url0 header data timeout0 no_headers in
  let aborted (message : str) :=
    let line := lit "[bold red]" ++ [10007] ++ lit " Error:[/bold red] "
                ++ message in
    run0 = (Sent wire :: (if markup_raises line then []
                          else [Printed (RText line)]),
            Fails (Escapes (if status_exit_raises then IndexError
                            else if markup_raises line then MarkupError
                            else Abort))) in
  (forall text, transport w wire = TimeoutException text ->
     aborted (lit "Request timeout despu" ++ [233] ++ lit "s de "
              ++ format_2f (time_end w - time_start w)%float ++ lit "s"))
  /\ (forall text, transport w wire = ConnectError text ->
        aborted (lit "No se pudo conectar a " ++ url0))
  /\ (forall text, transport w wire = OtherHTTPError text -> aborted text).
Proof.
  intros Hup Hparse Hc wire run0 aborted. unfold aborted, run0.
  rewrite (command_on_console_after_parse U J R v w url0 header data timeout0
             no_headers headers0 content Hup Hparse Hc).
  fold wire. repeat split; intros text Ht; rewrite Ht;
    apply (after_http_error_on_console U J R [Sent wire]).
Qed.

(** X18 at [get] against a host that refuses the connection: on a console
    that accepts the line and lets the spinner end, on one where leaving the
    spinner raises, and with a URL that Rich refuses. *)
Lemma command_http_failure_aborts_witness :
  upper_on_ascii BasicLatinCase
  /\ @run_command_on_console BasicLatinCase ReferenceJson ReferenceRich GET
       (sample_world (ConnectError (lit "refused")))
       (lit "http://h/") [lit "Accept: a"] None 30 false
     = ([Sent (mkWire (lit "GET") (lit "http://h/") [(lit "Accept", lit "a")] None 30);
         Printed (RText (lit "[bold red]" ++ [10007]
                         ++ lit " Error:[/bold red] No se pudo conectar a http://h/"))],
        Fails (Escapes Abort))
  /\ @run_command_on_console BasicLatinCase ReferenceJson PoppingRich GET
       (sample_world (ConnectError (lit "refused")))
       (lit "http://h/") [lit "Accept: a"] None 30 false
     = ([Sent (mkWire (lit "GET") (lit "http://h/") [(lit "Accept", lit "a")] None 30);
         Printed (RText (lit "[bold red]" ++ [10007]
                         ++ lit " Error:[/bold red] No se pudo conectar a http://h/"))],
        Fails (Escapes IndexError))
  /\ @run_command_on_console BasicLatinCase ReferenceJson ReferenceRich GET
       (sample_world (ConnectError (lit "refused")))
       (lit "http://h/[/x]") [] None 30 false
     = ([Sent (mkWire (lit "GET") (lit "http://h/[/x]") [] None 30)],
        Fails (Escapes MarkupError)).
Proof.
  split; [exact basic_latin_upper_on_ascii|]. split; [|split].
  - exact (proj1 (proj2 (command_http_failure_aborts BasicLatinCase ReferenceJson
                           ReferenceRich GET
                           (sample_world (ConnectError (lit "refused")))
                           (lit "http://h/") [lit "Accept: a"] None 30 false
                           [(lit "Accept", lit "a")] None
                           basic_latin_upper_on_ascii eq_refl eq_refl))
                 (lit "refused") eq_refl).
  - exact (proj1 (proj2 (command_http_failure_aborts BasicLatinCase ReferenceJson
                           PoppingRich GET
                           (sample_world (ConnectError (lit "refused")))
                           (lit "http://h/") [lit "Accept: a"] None 30 false
                           [(lit "Accept", lit "a")] None
                           basic_latin_upper_on_ascii eq_refl eq_refl))
                 (lit "refused") eq_refl).
  - exact (proj1 (proj2 (command_http_failure_aborts BasicLatinCase ReferenceJson
                           ReferenceRich GET
                           (sample_world (ConnectError (lit "refused")))
                           (lit "http://h/[/x]") [] None 30 false
                           [] None
                           basic_latin_upper_on_ascii eq_refl eq_refl))
                 (lit "refused") eq_refl).
Defined.



(** ** A console that refuses nothing *)

Lemma nothing_refused (R : RichConsole) (out : list renderable) :
  (forall s, markup_raises s = false) -> existsb renderable_raises out = false.
Proof.
  intros H. induction out as [|r out IH]; [reflexivity|].
  simpl. rewrite IH, orb_false_r.
  destruct r as [|s|c t b|c l|rows]; simpl; rewrite ?H; try reflexivity.
  induction rows as [|[k v] rows IHr]; [reflexivity|].
  simpl. now rewrite !H, IHr.
Qed.

Lemma after_call_quiet (U : UnicodeCase) (J : JsonModule) (R : RichConsole)
    (call : io HttpResponse) (no_headers : bool) :
  (forall s, markup_raises s = false) -> status_exit_raises = false ->
  after_call_on_console call no_headers = after_call call no_headers.
Proof.
  intros Hm Hs. destruct call as [events [response|[message|e]]];
    unfold after_call_on_console, after_call, leave_status; rewrite ?Hs;
    rewrite ?on_console_clean by now apply nothing_refused.
  - now destruct (lift _).
  - now destruct (lift _).
  - reflexivity.
Qed.

(** On a console that refuses no string and lets the status spinner end, the
    run of a command is the sequence of its calls. *)
Lemma run_command_quiet (U : UnicodeCase) (J : JsonModule) (R : RichConsole)
    (v : verb) (w : World) (url0 : str) (header : list str) (data : option str)
    (timeout0 : Z) (no_headers : bool) :
  (forall s, markup_raises s = false) -> status_exit_raises = false ->
  run_command_on_console v w url0 header data timeout0 no_headers
  = run_command v w url0 header data timeout0 no_headers.
Proof.
  intros Hm Hs. rewrite command_on_console_unfold, command_unfold.
  rewrite on_console_clean by now apply nothing_refused.
  unfold io_bind. destruct (lift (_parse_headers header)) as [events [d|f]];
    [|reflexivity].
  now rewrite (after_call_quiet U J R _ no_headers Hm Hs).
Qed.

(** The reference console on the strings of the examples: a closing tag that
    closes nothing is refused, also behind an even number of backslashes; a
    matched pair, an open tag left open and an escaped tag are accepted. *)
Example reference_markup_samples :
  map RefRich.raises
      [lit "[/x]"; lit "a [/dim] b"; lit "[/]"; [92; 92] ++ lit "[/x]";
       lit "see [index] here"; lit "[bold]Body:[/bold]"; lit "[bold]a[/]";
       [92] ++ lit "[/x]"; lit "plain text"; lit "[1, 2, 3]"]
  = [true; true; true; true; false; false; false; false; false; false].
Proof. reflexivity. Qed.

(** The example of the specification on the reference console: every string
    of it is accepted, and the run is the sequence of its calls. *)
Example spec_example_not_found_on_console :
  @on_console ReferenceRich unit (format_response not_found_response true)
  = format_response not_found_response true.
Proof. vm_compute. reflexivity. Qed.
